(** * chatbot-ui: the retrieval-augmented chat handler of [pages/api/chat.ts]

    A shallow embedding of the three variants of the request handler that the
    repository carries:

    - [NodeChain.handler]  : [src/pages/api/chat.ts], lines 1-185 (the answer
      is produced by a langchain [LLMChain] whose callbacks write to [res]);
    - [Edge.handler]       : [src/pages/api/chat.ts], lines 186-352 (edge
      runtime, fixed cl100k_base codec, the stream is handed to [Response]);
    - [NodeStream.handler] : [src/unnamed/part_000] (the [OpenAIStream] is
      relayed to [res] by [readAndWrite]).

    The external collaborators (tiktoken, Pinecone, the OpenAI endpoints, the
    prompt templates) are oracles gathered in a record [World]; every call to
    one of them is logged in a chronological trace, so that ordering and
    resource properties can be stated on the trace. *)

From Stdlib Require Import ZArith String Ascii List Lia.
From Stdlib Require Import Floats.SpecFloat.
From stdpp Require Import base tactics option list strings.

Open Scope string_scope.
Open Scope list_scope.
Open Scope Z_scope.

(** ** JavaScript values used by the handler *)

(** A JS [number]: an IEEE-754 double, kept as plain data (the handler never
    computes with one, it only forwards it). *)
Definition number : Type := spec_float.

(** A possibly missing JSON field: [undefined] (absent), [null] or a value. *)
Inductive JsOpt (A : Type) : Type :=
| JsUndefined : JsOpt A
| JsNull : JsOpt A
| JsVal : A -> JsOpt A.
Arguments JsUndefined {A}.
Arguments JsNull {A}.
Arguments JsVal {A} _.

(** [v == null] is true for [null] and for [undefined] only. *)
Definition loose_eq_null {A} (v : JsOpt A) : bool :=
  match v with
  | JsUndefined | JsNull => true
  | JsVal _ => false
  end.

(** [arr[i]] for an integer index: [undefined] (here [None]) out of range. *)
Definition array_get {A} (arr : list A) (i : Z) : option A :=
  if i <? 0 then None else arr !! Z.to_nat i.

(** [arr.join(sep)]. *)
Fixpoint join (sep : string) (arr : list string) : string :=
  match arr with
  | [] => ""
  | [x] => x
  | x :: rest => x +:+ sep +:+ join sep rest
  end.

(** ** Data model ([@/types/chat], [@/pages/api/matches]) *)

Inductive Role : Type := RoleSystem | RoleUser | RoleAssistant.

Record Message : Type := mkMessage {
  role : Role;
  content : string
}.

Record OpenAIModel : Type := mkModel {
  id : string;
  tokenLimit : Z
}.

Record ChatBody : Type := mkChatBody {
  model : OpenAIModel;
  messages : list Message;
  key : string;
  prompt : string;
  temperature : JsOpt number
}.

Record Metadata : Type := mkMetadata {
  url : string;
  text : string;
  chunk : string
}.

(** A Pinecone [ScoredVector]; the handler reads its [metadata] only. *)
Record Match : Type := mkMatch {
  matchId : string;
  metadata : Metadata
}.

(** ** Insertion-ordered [Set] and [Map] of JavaScript

    Both iterate in insertion order, which the handler relies on, so they are
    lists: a [Set] holds each element once, a [Map] each key once. *)

Module JsSet.
Definition t : Type := list string.
Definition empty : t := [].
Definition has (s : t) (x : string) : bool := bool_decide (x ∈ s).
Definition add (s : t) (x : string) : t := if has s x then s else s ++ [x].
(** [new Set(iterable)] adds the elements one by one. *)
Definition of_array (arr : list string) : t := fold_left add arr empty.
(** [Array.from(set)]. *)
Definition to_array (s : t) : list string := s.
End JsSet.

Module JsMap.
Definition t : Type := list (string * string).
Definition empty : t := [].
Definition has (m : t) (k : string) : bool := bool_decide (k ∈ m.*1).
(** [map.set(k, v)]: a present key keeps its position and takes the new
    value, a new key is appended. *)
Definition set (m : t) (k v : string) : t :=
  if has m k
  then List.map (fun e : string * string => if bool_decide (e.1 = k) then (k, v) else e) m
  else m ++ [(k, v)].
(** [Array.from(map)]: the entries, in insertion order. *)
Definition entries (m : t) : list (string * string) := m.
End JsMap.

(** ** Context deduplication (chat.ts 50-75, part_000 70-95) *)

(** [Array.from(new Set(matches.map(match => match.metadata.url)))]. *)
Definition urls_of (matches : list Match) : list string :=
  JsSet.to_array (JsSet.of_array (List.map (fun m => url (metadata m)) matches)).

(** The reducer of [matches.reduce((map, match) => ..., new Map())]. *)
Definition collect (map : JsMap.t) (m : Match) : JsMap.t :=
  let u := url (metadata m) in
  let t := text (metadata m) in
  if negb (JsMap.has map u) then JsMap.set map u t else map.

Definition document_map (matches : list Match) : JsMap.t :=
  fold_left collect matches JsMap.empty.

(** [Array.from(matches.reduce(...)).map(([_, text]) => text)]. *)
Definition fullDocuments_of (matches : list Match) : list string :=
  List.map (fun e : string * string => e.2) (JsMap.entries (document_map matches)).

(** [Array.from(new Set(matches.map(match => match.metadata.chunk)))]; the
    handlers compute it and never read it. *)
Definition chunkedDocs_of (matches : list Match) : list string :=
  JsSet.to_array (JsSet.of_array (List.map (fun m => chunk (metadata m)) matches)).

(** ** Tokenizer codec ([@dqbd/tiktoken]) *)

(** The codec is an external library: a [Tiktoken] object is whatever maps a
    text to its token ids. *)
Record Tiktoken : Type := mkTiktoken {
  encode : string -> list Z
}.

(** [encoding.encode(s).length]. *)
Definition token_count (encoding : Tiktoken) (s : string) : Z :=
  Z.of_nat (length (encode encoding s)).

(** ** Errors, streams and the response object *)

(** Errors that are not instances of [OpenAIError]: the ones thrown by
    tiktoken, Pinecone, langchain and the language itself. *)
Inductive Failure : Type :=
| UnsupportedModelError (modelId : string)
| TypeError (message : string)
| OtherError (message : string).

(** What can be thrown: a [Failure], or an [OpenAIError], which carries a
    message. [OpenAIError] is the class that [@/utils/server] exports next
    to [OpenAIStream], which throws it when the completion endpoint answers
    with an error; tiktoken, Pinecone, the langchain chains and the
    summarizer are taken to throw errors of other classes. *)
Inductive Error : Type :=
| Foreign (failure : Failure)
| OpenAIError (message : string).
Coercion Foreign : Failure >-> Error.

Inductive Outcome (E A : Type) : Type :=
| Ok : A -> Outcome E A
| Throw : E -> Outcome E A.
Arguments Ok {E A} _.
Arguments Throw {E A} _.

(** The result of a step of the handler: a value, or any error. *)
Definition Result (A : Type) : Type := Outcome Error A.

(** The answer of a collaborator other than [OpenAIStream]: a value, or an
    error that is not an [OpenAIError]. *)
Definition Answer (A : Type) : Type := Outcome Failure A.

(** How a producer stream ends: [read()] reports [done], or rejects. *)
Inductive StreamEnd : Type :=
| StreamClosed
| StreamErrored (e : Error).

(** A finite [ReadableStream]: the chunks it will deliver, then its end. *)
Record ReadableStream : Type := mkStream {
  chunks : list string;
  ending : StreamEnd
}.

(** Calls made on the Node response object [res], in program order. *)
Inductive ResOp : Type :=
| ResSetHeader (name value : string)
| ResWrite (chunk : string)
| ResEnd
| ResStatus (code : Z)
| ResEndWith (body : string).

(** What the langchain chat model does while [chain.call] runs: the
    callbacks it fires, then whether the call resolves or rejects. *)
Inductive LLMCallback : Type :=
| LLMNewToken (token : string)
| LLMEnd.

Record ChainRun : Type := mkChainRun {
  fired : list LLMCallback;
  completion : Answer unit
}.

(** The variables given to [promptQA.format]. *)
Record FormatArgs : Type := mkFormatArgs {
  summaries : string;
  question : string;
  conversationHistory : list string;
  urls : list string
}.

(** The variables given to [chain.call] (the history holds messages). *)
Record ChainArgs : Type := mkChainArgs {
  chain_summaries : string;
  chain_question : string;
  chain_conversationHistory : list Message;
  chain_urls : list string
}.

(** The options of [new ChatOpenAI({...})], callback manager apart. *)
Record ChatOpenAIOptions : Type := mkChatOpenAIOptions {
  streaming : bool;
  verbose : bool;
  modelName : string
}.

(** What the handler hands back to its caller. *)
Inductive Returned : Type :=
| RetUndefined
| RetErrorResponse (status : Z) (statusText : option string)
| RetStreamResponse (body : ReadableStream).

(** ** The external collaborators *)

Record World : Type := mkWorld {
  (** [DEFAULT_TEMPERATURE] of [@/utils/app/const]. *)
  DEFAULT_TEMPERATURE : number;
  (** [process.env.OPENAI_API_KEY]. *)
  OPENAI_API_KEY : string;
  (** outcome of [pinecone.init({...})]. *)
  pinecone_init : Answer unit;
  (** [encoding_for_model(id)]; [None] when tiktoken has no codec for [id]. *)
  encoding_for_model : string -> option Tiktoken;
  (** [init(wasm)] followed by [new Tiktoken(cl100k_base ...)]. *)
  tiktoken_lite : Answer Tiktoken;
  inquiryChain_call : string -> list string -> Answer string;
  embedQuery : string -> Answer (list number);
  getMatchesFromEmbeddings : list number -> Z -> Answer (list Match);
  summarizeLongDocument : string -> string -> Answer string;
  promptQA_format : FormatArgs -> Answer string;
  OpenAIStream :
    OpenAIModel -> string -> number -> string -> list Message -> Result ReadableStream;
  chain_call : ChatOpenAIOptions -> ChainArgs -> ChainRun;
  (** whether the runtime's [new Response(body, {status, statusText})]
      accepts this [statusText]; it throws a [TypeError] when it does not
      (the text is not a reason phrase). *)
  statusText_accepted : string -> bool
}.

(** ** Observable events and the handler's state *)

Inductive Event : Type :=
| EvPineconeInit
| EvEncodingForModel (modelId : string)
| EvTiktokenLite
| EvInquiryCall (userPrompt : string) (history : list string)
| EvEmbedQuery (input : string)
| EvGetMatches (embeddings : list number) (topK : Z)
| EvSummarize (document inquiry : string)
| EvFormat (args : FormatArgs)
| EvEncodingFree
| EvOpenAIStream (m : OpenAIModel) (systemPrompt : string) (temp : number)
    (apiKey : string) (msgs : list Message)
| EvChainCall (options : ChatOpenAIOptions) (args : ChainArgs)
| EvConsoleError (e : Error)
| EvUnhandledRejection (e : Error).

(** [pinecone] is the module-level client variable ([true]: non-null);
    [live_codecs] counts the tiktoken codecs that were allocated and not yet
    given back by [free()]; [trace] is the chronological log of collaborator
    calls; [res] the calls made on the response object. *)
Record HState : Type := mkHState {
  pinecone : bool;
  live_codecs : nat;
  trace : list Event;
  res : list ResOp
}.

Definition initial (pinecone_set : bool) : HState :=
  {| pinecone := pinecone_set; live_codecs := 0; trace := []; res := [] |}.

(** ** A state and exception monad for the handler bodies *)

Definition M (A : Type) : Type := HState -> Result A * HState.

Definition ret {A} (a : A) : M A := fun st => (Ok a, st).

Definition throw {A} (e : Error) : M A := fun st => (Throw e, st).

Definition bind {A B} (m : M A) (k : A -> M B) : M B :=
  fun st =>
    match m st with
    | (Ok a, st') => k a st'
    | (Throw e, st') => (Throw e, st')
    end.

Notation "x <- c1 ;; c2" := (bind c1 (fun x => c2))
  (at level 100, c1 at next level, right associativity).
Notation "c1 ;; c2" := (bind c1 (fun _ => c2))
  (at level 100, right associativity).

(** [try { body } catch (error) { handler }]. *)
Definition try_catch {A} (body : M A) (handler : Error -> M A) : M A :=
  fun st =>
    match body st with
    | (Ok a, st') => (Ok a, st')
    | (Throw e, st') => handler e st'
    end.

(** An error of a collaborator, as the handler sees it thrown. *)
Definition raise {A} (r : Answer A) : Result A :=
  match r with
  | Ok a => Ok a
  | Throw failure => Throw (Foreign failure)
  end.

Definition lift_result {A} (r : Result A) : M A := fun st => (r, st).

Definition lift {A} (r : Answer A) : M A := lift_result (raise r).

Definition emit (e : Event) : M unit :=
  fun st =>
    (Ok tt, {| pinecone := pinecone st; live_codecs := live_codecs st;
               trace := trace st ++ [e]; res := res st |}).

Definition res_op (o : ResOp) : M unit :=
  fun st =>
    (Ok tt, {| pinecone := pinecone st; live_codecs := live_codecs st;
               trace := trace st; res := res st ++ [o] |}).

Definition set_pinecone : M unit :=
  fun st =>
    (Ok tt, {| pinecone := true; live_codecs := live_codecs st;
               trace := trace st; res := res st |}).

Definition get_pinecone : M bool := fun st => (Ok (pinecone st), st).

(** A codec object comes to life, or is given back. *)
Definition codec_allocated : M unit :=
  fun st =>
    (Ok tt, {| pinecone := pinecone st; live_codecs := S (live_codecs st);
               trace := trace st; res := res st |}).

Definition codec_freed : M unit :=
  fun st =>
    (Ok tt, {| pinecone := pinecone st; live_codecs := Nat.pred (live_codecs st);
               trace := trace st; res := res st |}).

(** A call to a collaborator: logged, then its outcome. *)
Definition call {A} (e : Event) (r : Answer A) : M A := emit e ;; lift r.

(** A call to [OpenAIStream], which may also throw an [OpenAIError]. *)
Definition call_openai {A} (e : Event) (r : Result A) : M A := emit e ;; lift_result r.

(** A promise nobody awaits: its effects happen, its rejection is lost to
    the caller (Node reports an unhandled rejection). *)
Definition detach (m : M unit) : M unit :=
  fun st =>
    match m st with
    | (Ok _, st') => (Ok tt, st')
    | (Throw e, st') => emit (EvUnhandledRejection e) st'
    end.

(** [encoding.free()]. *)
Definition encoding_free : M unit := emit EvEncodingFree ;; codec_freed.

(** ** Steps shared by the three variants *)

Section Steps.
Variable w : World.

(** [initPineconeClient]: the variable is assigned before [init] is
    awaited. *)
Definition initPineconeClient : M unit :=
  set_pinecone ;; call EvPineconeInit (pinecone_init w).

(** [if (!pinecone) { await initPineconeClient(); }]. *)
Definition ensure_pinecone : M unit :=
  p <- get_pinecone ;;
  if negb p then initPineconeClient else ret tt.

(** [encoding_for_model(model.id as TiktokenModel)]. *)
Definition acquire_encoding (modelId : string) : M Tiktoken :=
  encoding <- call (EvEncodingForModel modelId)
                (match encoding_for_model w modelId with
                 | Some enc => Ok enc
                 | None => Throw (UnsupportedModelError modelId)
                 end) ;;
  codec_allocated ;;
  ret encoding.

(** [await init(...)] and [new Tiktoken(cl100k_base ...)] of the edge
    variant: the model id plays no part. *)
Definition acquire_lite_encoding : M Tiktoken :=
  encoding <- call EvTiktokenLite (tiktoken_lite w) ;;
  codec_allocated ;;
  ret encoding.

(** [let temperatureToUse = temperature;
     if (temperatureToUse == null) temperatureToUse = DEFAULT_TEMPERATURE;] *)
Definition temperatureToUse (temperature : JsOpt number) : number :=
  if loose_eq_null temperature then DEFAULT_TEMPERATURE w
  else match temperature with
       | JsVal t => t
       | JsUndefined | JsNull => DEFAULT_TEMPERATURE w
       end.

End Steps.

(** The [Response] that the [catch (error)] block asks for: the status text
    is the message of an [OpenAIError], and is absent for any other error.
    Whether the runtime builds it is decided by [on_error], which is the
    [catch] block; this is only the value it returns when it does. *)
Definition error_response (error : Error) : Returned :=
  match error with
  | OpenAIError message => RetErrorResponse 500 (Some message)
  | _ => RetErrorResponse 500 None
  end.

(** The [catch (error)] block of every variant: the error is logged, then
    the [Response] is built; [new Response('Error', {status: 500, statusText:
    error.message})] itself throws a [TypeError] when the runtime does not
    accept the message as a status text, and nothing catches that one. *)
Definition on_error (w : World) (error : Error) : M Returned :=
  emit (EvConsoleError error) ;;
  match error with
  | OpenAIError message =>
      if statusText_accepted w message
      then ret (error_response error)
      else throw (TypeError "Invalid statusText")
  | Foreign _ => ret (error_response error)
  end.

(** Whether [new Response('Error', init)] of the [catch] block is built for
    [error]: without a [statusText] it always is. *)
Definition response_built (w : World) (error : Error) : bool :=
  match error with
  | OpenAIError message => statusText_accepted w message
  | Foreign _ => true
  end.

(** ** Budget allocation: the selection loop (chat.ts 123-138 and 321-335,
    part_000 131-145)

    [select_turns encoding limit messages (i + 1) tokenCount acc] is the
    state of [for (let i = ...; i >= 0; i--)] on entering the iteration of
    index [i]; it is entered with [i + 1 = messages.length]. *)
Fixpoint select_turns (encoding : Tiktoken) (limit : Z) (messages : list Message)
    (upto : nat) (tokenCount : Z) (acc : list Message) : Answer (Z * list Message) :=
  match upto with
  | O => Ok (tokenCount, acc)
  | S i =>
      match messages !! i with
      | None => Throw (TypeError "Cannot read properties of undefined")
      | Some message =>
          let tokens := encode encoding (content message) in
          if tokenCount + Z.of_nat (length tokens) + 1000 >? limit
          then Ok (tokenCount, acc)
          else select_turns encoding limit messages i
                 (tokenCount + Z.of_nat (length tokens)) (message :: acc)
      end
  end.

(** From [const prompt_tokens = encoding.encode(promptToSend)] to the end of
    the loop: the final [tokenCount] and the admitted turns. *)
Definition budget_select (encoding : Tiktoken) (m : OpenAIModel)
    (promptToSend : string) (messages : list Message) : Answer (Z * list Message) :=
  let prompt_tokens := encode encoding promptToSend in
  select_turns encoding (tokenLimit m) messages (length messages)
    (Z.of_nat (length prompt_tokens)) [].

(** The line feed of ['\n']. *)
Definition newline : string := String (ascii_of_nat 10) EmptyString.

(** ** Variant 1: [src/pages/api/chat.ts], lines 1-185 *)

Module NodeChain.
Section Handler.
Variable w : World.

(** [messages[messages.length-1].content]: a [TypeError] on an empty
    history, whose last element is [undefined]. *)
Definition last_content (messages : list Message) : M string :=
  match array_get messages (Z.of_nat (length messages) - 1) with
  | Some message => ret (content message)
  | None => throw (TypeError "Cannot read properties of undefined (reading 'content')")
  end.

(** [for (let doc of fullDocuments) documentTokens += encoding.encode(doc).length]. *)
Definition documentTokens_of (encoding : Tiktoken) (fullDocuments : list string) : Z :=
  fold_left (fun documentTokens doc => documentTokens + token_count encoding doc)
    fullDocuments 0.

(** [if (documentTokens > 14000) { const summary = await summarizeLongDocument(...) }]:
    [summary] is local to the block and the block does not read it. *)
Definition summarize_if_long (encoding : Tiktoken) (messages : list Message)
    (fullDocuments : list string) : M unit :=
  if documentTokens_of encoding fullDocuments >? 14000
  then
    focus <- last_content messages ;;
    summary <- call (EvSummarize (join newline fullDocuments) focus)
                 (summarizeLongDocument w (join newline fullDocuments) focus) ;;
    ret tt
  else ret tt.

Definition chat_options : ChatOpenAIOptions :=
  {| streaming := true; verbose := true; modelName := "gpt-3.5-turbo-16k" |}.

(** [handleLLMNewToken(token) { res.write(token) }] and
    [handleLLMEnd(result) { res.end() }]. *)
Definition on_callback (c : LLMCallback) : M unit :=
  match c with
  | LLMNewToken token => res_op (ResWrite token)
  | LLMEnd => res_op ResEnd
  end.

Fixpoint run_callbacks (cs : list LLMCallback) : M unit :=
  match cs with
  | [] => ret tt
  | c :: rest => on_callback c ;; run_callbacks rest
  end.

(** [await chain.call({...})]: the chat model fires the callbacks while
    the call is pending. *)
Definition chain_call_streaming (args : ChainArgs) : M unit :=
  emit (EvChainCall chat_options args) ;;
  run_callbacks (fired (chain_call w chat_options args)) ;;
  lift (completion (chain_call w chat_options args)).

Definition body (req : ChatBody) : M Returned :=
  ensure_pinecone w ;;
  encoding <- acquire_encoding w (id (model req)) ;;
  input <- last_content (messages req) ;;
  embeddings <- call (EvEmbedQuery input) (embedQuery w input) ;;
  matches <- call (EvGetMatches embeddings 3) (getMatchesFromEmbeddings w embeddings 3) ;;
  let urls := urls_of matches in
  let fullDocuments := fullDocuments_of matches in
  summarize_if_long encoding (messages req) fullDocuments ;;
  let temperatureToUse := temperatureToUse w (temperature req) in
  let args :=
    {| summaries := join newline fullDocuments;
       question := prompt req;
       conversationHistory := List.map content (messages req);
       urls := urls |} in
  promptToSend <- call (EvFormat args) (promptQA_format w args) ;;
  selected <- lift (budget_select encoding (model req) promptToSend (messages req)) ;;
  let conversationHistory := selected.2 in
  encoding_free ;;
  chain_call_streaming
    {| chain_summaries := join newline fullDocuments;
       chain_question := promptToSend;
       chain_conversationHistory := conversationHistory;
       chain_urls := urls |} ;;
  ret RetUndefined.

Definition handler (req : ChatBody) : M Returned :=
  try_catch (body req) (on_error w).
End Handler.
End NodeChain.

(** ** Variant 2: [src/pages/api/chat.ts], lines 186-352 (edge runtime) *)

Module Edge.
Section Handler.
Variable w : World.

Definition body (req : ChatBody) : M Returned :=
  ensure_pinecone w ;;
  encoding <- acquire_lite_encoding w ;;
  let history := List.map content (messages req) in
  inquiry <- call (EvInquiryCall (prompt req) history)
               (inquiryChain_call w (prompt req) history) ;;
  embeddings <- call (EvEmbedQuery inquiry) (embedQuery w inquiry) ;;
  matches <- call (EvGetMatches embeddings 3) (getMatchesFromEmbeddings w embeddings 3) ;;
  let urls := urls_of matches in
  let fullDocuments := fullDocuments_of matches in
  let temperatureToUse := temperatureToUse w (temperature req) in
  summary <- call (EvSummarize (join newline fullDocuments) inquiry)
               (summarizeLongDocument w (join newline fullDocuments) inquiry) ;;
  let args :=
    {| summaries := summary;
       question := prompt req;
       conversationHistory := List.map content (messages req);
       urls := urls |} in
  promptToSend <- call (EvFormat args) (promptQA_format w args) ;;
  selected <- lift (budget_select encoding (model req) promptToSend (messages req)) ;;
  let messagesToSend := selected.2 in
  encoding_free ;;
  stream <- call_openai (EvOpenAIStream (model req) promptToSend temperatureToUse (key req)
                    messagesToSend)
              (OpenAIStream w (model req) promptToSend temperatureToUse (key req)
                 messagesToSend) ;;
  ret (RetStreamResponse stream).

Definition handler (req : ChatBody) : M Returned :=
  try_catch (body req) (on_error w).
End Handler.
End Edge.

(** ** Variant 3: [src/unnamed/part_000] *)

Module NodeStream.
Section Handler.
Variable w : World.

(** [readAndWrite]: one [reader.read()], then either [res.end()] or
    [res.write(value)] and a new [readAndWrite()] that is not awaited. The
    stream being finite, the recursion follows what is left to read. *)
Fixpoint readAndWrite (pending : list string) (e : StreamEnd) : M unit :=
  match pending with
  | [] =>
      match e with
      | StreamClosed => res_op ResEnd
      | StreamErrored err => throw err
      end
  | value :: rest =>
      res_op (ResWrite value) ;;
      detach (readAndWrite rest e)
  end.

(** [readAndWrite().catch((err) => { console.error(err);
     res.status(500).end('An error occurred while streaming data.') })]. *)
Definition relay (stream : ReadableStream) : M unit :=
  try_catch (readAndWrite (chunks stream) (ending stream))
    (fun err =>
       emit (EvConsoleError err) ;;
       res_op (ResStatus 500) ;;
       res_op (ResEndWith "An error occurred while streaming data.")).

Definition body (req : ChatBody) : M Returned :=
  ensure_pinecone w ;;
  encoding <- acquire_encoding w (id (model req)) ;;
  let history := List.map content (messages req) in
  inquiry <- call (EvInquiryCall (prompt req) history)
               (inquiryChain_call w (prompt req) history) ;;
  embeddings <- call (EvEmbedQuery inquiry) (embedQuery w inquiry) ;;
  matches <- call (EvGetMatches embeddings 3) (getMatchesFromEmbeddings w embeddings 3) ;;
  let urls := urls_of matches in
  let fullDocuments := fullDocuments_of matches in
  let temperatureToUse := temperatureToUse w (temperature req) in
  summary <- call (EvSummarize (join newline fullDocuments) inquiry)
               (summarizeLongDocument w (join newline fullDocuments) inquiry) ;;
  let args :=
    {| summaries := summary;
       question := prompt req;
       conversationHistory := List.map content (messages req);
       urls := urls |} in
  promptToSend <- call (EvFormat args) (promptQA_format w args) ;;
  selected <- lift (budget_select encoding (model req) promptToSend (messages req)) ;;
  let messagesToSend := selected.2 in
  encoding_free ;;
  let key := OPENAI_API_KEY w in
  stream <- call_openai (EvOpenAIStream (model req) promptToSend temperatureToUse key
                    messagesToSend)
              (OpenAIStream w (model req) promptToSend temperatureToUse key
                 messagesToSend) ;;
  res_op (ResSetHeader "Content-Type" "text/plain") ;;
  res_op (ResSetHeader "Transfer-Encoding" "chunked") ;;
  relay stream ;;
  ret RetUndefined.

Definition handler (req : ChatBody) : M Returned :=
  try_catch (body req) (on_error w).
End Handler.
End NodeStream.

(** ** Observations on a run *)

(** The state in which a handler leaves the process, and what it returns. *)
Definition final_state {E A} (run : Outcome E A * HState) : HState := run.2.
Definition outcome {E A} (run : Outcome E A * HState) : Outcome E A := run.1.

(** The variables of every [promptQA.format] call of a trace. *)
Definition format_calls (tr : list Event) : list FormatArgs :=
  omap (fun e => match e with EvFormat a => Some a | _ => None end) tr.

(** The (document, focus) pairs of every [summarizeLongDocument] call. *)
Definition summarize_calls (tr : list Event) : list (string * string) :=
  omap (fun e => match e with EvSummarize d q => Some (d, q) | _ => None end) tr.

(** The (system prompt, temperature, messages) of every [OpenAIStream] call. *)
Definition stream_calls (tr : list Event) : list (string * number * list Message) :=
  omap (fun e => match e with
                 | EvOpenAIStream _ p t _ ms => Some (p, t, ms)
                 | _ => None
                 end) tr.

(** The variables of every [chain.call]. *)
Definition chain_calls (tr : list Event) : list ChainArgs :=
  omap (fun e => match e with EvChainCall _ a => Some a | _ => None end) tr.

(** Calls on behalf of retrieval: the query embedding and the index query. *)
Definition is_retrieval (e : Event) : bool :=
  match e with
  | EvEmbedQuery _ | EvGetMatches _ _ => true
  | _ => false
  end.

Definition retrieval_calls (tr : list Event) : list Event :=
  List.filter is_retrieval tr.

(** The response calls that a langchain callback stands for. *)
Definition callback_op (c : LLMCallback) : ResOp :=
  match c with
  | LLMNewToken token => ResWrite token
  | LLMEnd => ResEnd
  end.

(** What relaying a stream adds to the trace and to the response. *)
Definition relay_effect (stream : ReadableStream) : list Event * list ResOp :=
  match ending stream, chunks stream with
  | StreamClosed, cs => ([], (ResWrite <$> cs) ++ [ResEnd])
  | StreamErrored err, [] =>
      ([EvConsoleError err],
       [ResStatus 500; ResEndWith "An error occurred while streaming data."])
  | StreamErrored err, cs => ([EvUnhandledRejection err], ResWrite <$> cs)
  end.

(** The chunks written on the response, and how many times it was ended by
    [res.end()]. *)
Definition written (ops : list ResOp) : list string :=
  omap (fun o => match o with ResWrite chunk => Some chunk | _ => None end) ops.

Definition ends (ops : list ResOp) : nat :=
  length (List.filter (fun o => match o with ResEnd => true | _ => false end) ops).

(** How many times the response was ended at all, by [res.end()] or by
    [res.end(body)]. *)
Definition closings (ops : list ResOp) : nat :=
  length (List.filter (fun o => match o with ResEnd | ResEndWith _ => true | _ => false end)
            ops).

(** [promptToSend] is the template rendered with the request's question and
    with the content of every message of the request's history. *)
Definition renders_whole_history (w : World) (req : ChatBody) (promptToSend : string) : Prop :=
  exists a : FormatArgs,
    promptQA_format w a = Ok promptToSend
    /\ question a = prompt req
    /\ conversationHistory a = content <$> messages req.

(** [turns] is what the selection loop admits for [promptToSend] when it
    counts with the codec that the handler acquired. *)
Definition selected_for (acquired : option Tiktoken) (req : ChatBody)
    (promptToSend : string) (turns : list Message) : Prop :=
  exists (encoding : Tiktoken) (tokenCount : Z),
    acquired = Some encoding
    /\ budget_select encoding (model req) promptToSend (messages req) = Ok (tokenCount, turns).

(** The codec that the edge variant builds, if it can. *)
Definition lite_codec (w : World) : option Tiktoken :=
  match tiktoken_lite w with
  | Ok encoding => Some encoding
  | Throw _ => None
  end.

(** The collaborators of the two variants that call [OpenAIStream] answer,
    and [promptToSend] is what the template renders from their answers, the
    request's prompt and the content of every message. *)
Definition stream_pipeline (w : World) (req : ChatBody) (promptToSend : string) : Prop :=
  exists inquiry emb found summary,
    inquiryChain_call w (prompt req) (content <$> messages req) = Ok inquiry
    /\ embedQuery w inquiry = Ok emb
    /\ getMatchesFromEmbeddings w emb 3 = Ok found
    /\ summarizeLongDocument w (join newline (fullDocuments_of found)) inquiry = Ok summary
    /\ promptQA_format w
         {| summaries := summary;
            question := prompt req;
            conversationHistory := content <$> messages req;
            urls := urls_of found |} = Ok promptToSend.

(** The same for the langchain variant, which embeds the newest message and
    summarizes only above 14,000 tokens; [found] are the matches. *)
Definition chain_pipeline (w : World) (req : ChatBody) (encoding : Tiktoken)
    (found : list Match) (promptToSend : string) : Prop :=
  exists newest emb,
    last (messages req) = Some newest
    /\ embedQuery w (content newest) = Ok emb
    /\ getMatchesFromEmbeddings w emb 3 = Ok found
    /\ (NodeChain.documentTokens_of encoding (fullDocuments_of found) <= 14000
        \/ exists summary,
             summarizeLongDocument w (join newline (fullDocuments_of found)) (content newest)
             = Ok summary)
    /\ promptQA_format w
         {| summaries := join newline (fullDocuments_of found);
            question := prompt req;
            conversationHistory := content <$> messages req;
            urls := urls_of found |} = Ok promptToSend.

(** [w] with another codec registry behind [encoding_for_model]. *)
Definition with_registry (registry : string -> option Tiktoken) (w : World) : World :=
  {| DEFAULT_TEMPERATURE := DEFAULT_TEMPERATURE w;
     OPENAI_API_KEY := OPENAI_API_KEY w;
     pinecone_init := pinecone_init w;
     encoding_for_model := registry;
     tiktoken_lite := tiktoken_lite w;
     inquiryChain_call := inquiryChain_call w;
     embedQuery := embedQuery w;
     getMatchesFromEmbeddings := getMatchesFromEmbeddings w;
     summarizeLongDocument := summarizeLongDocument w;
     promptQA_format := promptQA_format w;
     OpenAIStream := OpenAIStream w;
     chain_call := chain_call w;
     statusText_accepted := statusText_accepted w |}.

(** A run that ended in the [catch] block before any retrieval call, with
    no codec alive; when [pinecone.init] did not itself fail, the error
    caught is [error], thrown by the call logged as [failing]. *)
Definition stopped_before_retrieval (w : World) (p : bool) (failing : Event)
    (error : Error) (run : Result Returned * HState) : Prop :=
  (exists statusText, outcome run = Ok (RetErrorResponse 500 statusText))
  /\ retrieval_calls (trace (final_state run)) = []
  /\ live_codecs (final_state run) = 0%nat
  /\ (p = true \/ pinecone_init w = Ok tt ->
      outcome run = Ok (error_response error)
      /\ trace (final_state run)
         = (if p then [] else [EvPineconeInit]) ++ [failing; EvConsoleError error]).

(** How many times [encoding.free()] ran. *)
Definition encoding_frees (tr : list Event) : nat :=
  length (List.filter (fun e => match e with EvEncodingFree => true | _ => false end) tr).

(** The events that start the generation of the answer. *)
Definition is_generation (e : Event) : bool :=
  match e with
  | EvOpenAIStream _ _ _ _ _ | EvChainCall _ _ => true
  | _ => false
  end.

(** [freed_first freed tr]: reading [tr] from a point at which the codec has
    ([freed = true]) or has not yet been given back, no generation event
    comes before an [EvEncodingFree]. *)
Fixpoint freed_first (freed : bool) (tr : list Event) : bool :=
  match tr with
  | [] => true
  | EvEncodingFree :: rest => freed_first true rest
  | e :: rest => (negb (is_generation e) || freed) && freed_first freed rest
  end.

(** A run that ended in the [catch] block with its codec still allocated. *)
Definition leaked (run : Result Returned * HState) : Prop :=
  live_codecs (final_state run) = 1%nat
  /\ encoding_frees (trace (final_state run)) = 0%nat
  /\ exists statusText, outcome run = Ok (RetErrorResponse 500 statusText).

(** [st] after further events and further response calls. *)
Definition extend (st : HState) (evs : list Event) (ops : list ResOp) : HState :=
  {| pinecone := pinecone st; live_codecs := live_codecs st;
     trace := trace st ++ evs; res := res st ++ ops |}.

(** [req] with another [temperature] field. *)
Definition with_temperature (t : JsOpt number) (req : ChatBody) : ChatBody :=
  {| model := model req; messages := messages req; key := key req;
     prompt := prompt req; temperature := t |}.

(** Tokens of a sequence of turns, as the loop counts them. *)
Definition turn_tokens (encoding : Tiktoken) (turns : list Message) : Z :=
  foldr (fun m total => token_count encoding (content m) + total) 0 turns.

(** ** Further observations on a trace *)

(** How many times [pinecone.init] was called. *)
Definition pinecone_inits (tr : list Event) : nat :=
  length (List.filter (fun e => match e with EvPineconeInit => true | _ => false end) tr).

(** The errors given to [console.error]. *)
Definition console_errors (tr : list Event) : list Error :=
  omap (fun e => match e with EvConsoleError err => Some err | _ => None end) tr.

(** The (user prompt, history) pairs given to the inquiry chain. *)
Definition inquiry_calls (tr : list Event) : list (string * list string) :=
  omap (fun e => match e with EvInquiryCall q h => Some (q, h) | _ => None end) tr.

(** The texts given to [embedder.embedQuery]. *)
Definition embed_calls (tr : list Event) : list string :=
  omap (fun e => match e with EvEmbedQuery input => Some input | _ => None end) tr.

(** The (vector, topK) pairs given to [getMatchesFromEmbeddings]. *)
Definition index_queries (tr : list Event) : list (list number * Z) :=
  omap (fun e => match e with EvGetMatches v k => Some (v, k) | _ => None end) tr.

(** The (model, key) pairs given to [OpenAIStream]. *)
Definition stream_targets (tr : list Event) : list (OpenAIModel * string) :=
  omap (fun e => match e with
                 | EvOpenAIStream m _ _ k _ => Some (m, k)
                 | _ => None
                 end) tr.

(** The options of every chat model a chain was run with. *)
Definition chain_options (tr : list Event) : list ChatOpenAIOptions :=
  omap (fun e => match e with EvChainCall o _ => Some o | _ => None end) tr.

(** Tokens of a list of texts. *)
Definition text_tokens (encoding : Tiktoken) (texts : list string) : Z :=
  foldr (fun t total => token_count encoding t + total) 0 texts.


Definition map_result {E A B} (f : A -> B) (r : Outcome E A) : Outcome E B :=
  match r with
  | Ok a => Ok (f a)
  | Throw e => Throw e
  end.

(** [w] with every match returned by the index passed through [f]. *)
Definition with_matches (f : Match -> Match) (w : World) : World :=
  {| DEFAULT_TEMPERATURE := DEFAULT_TEMPERATURE w;
     OPENAI_API_KEY := OPENAI_API_KEY w;
     pinecone_init := pinecone_init w;
     encoding_for_model := encoding_for_model w;
     tiktoken_lite := tiktoken_lite w;
     inquiryChain_call := inquiryChain_call w;
     embedQuery := embedQuery w;
     getMatchesFromEmbeddings := fun v k =>
       map_result (fmap f) (getMatchesFromEmbeddings w v k);
     summarizeLongDocument := summarizeLongDocument w;
     promptQA_format := promptQA_format w;
     OpenAIStream := OpenAIStream w;
     chain_call := chain_call w;
     statusText_accepted := statusText_accepted w |}.

(** The two headers set before a stream is relayed. *)
Definition streaming_headers : list ResOp :=
  [ResSetHeader "Content-Type" "text/plain"; ResSetHeader "Transfer-Encoding" "chunked"].

(** ** Deduplication as the specification words it *)

(** The specification's reading of "one representative per source, first
    seen wins, in first-occurrence order": the head is kept, and from what
    the rest keeps, everything with the head's key is removed. *)
Fixpoint first_by {A} (key : A -> string) (l : list A) : list A :=
  match l with
  | [] => []
  | x :: rest => x :: filter (fun y => key y <> key x) (first_by key rest)
  end.

(** The matches that represent their source. *)
Definition first_seen (matches : list Match) : list Match :=
  first_by (fun m => url (metadata m)) matches.

(** What the [Set] constructor and the [Map] reducer both do with one
    element: append it unless its key is already there. *)
Definition add_new {A} (key : A -> string) (acc : list A) (x : A) : list A :=
  if bool_decide (key x ∈ key <$> acc) then acc else acc ++ [x].

(** The pair that the reducer stores for a match. *)
Definition entry_of (m : Match) : string * string :=
  (url (metadata m), text (metadata m)).

(** ** A concrete world, for evaluating the handlers on explicit requests *)

Module Sample.
(** A byte-level codec: one token per character. *)
Definition byte_codec : Tiktoken :=
  {| encode := fun s => List.map (fun c => Z.of_nat (nat_of_ascii c)) (list_ascii_of_string s) |}.

(** The double 1.0 and the double 0.5. *)
Definition one : number := S754_finite false 4503599627370496 (-52).
Definition half : number := S754_finite false 4503599627370496 (-53).

Definition doc (u t : string) : Match :=
  {| matchId := u; metadata := {| url := u; text := t; chunk := t |} |}.

(** The reason phrases of HTTP: tabs, spaces, visible ASCII and bytes from
    128 up; in particular no line break. *)
Definition reason_phrase (s : string) : bool :=
  forallb (fun c => let n := nat_of_ascii c in
                    (n =? 9)%nat || ((32 <=? n)%nat && (n <=? 126)%nat) || (128 <=? n)%nat)
    (list_ascii_of_string s).

(** A world in which every collaborator answers: the codec registry knows
    ["gpt-3.5-turbo"] only, the index returns [found], the summarizer
    answers ["SUMMARY"], the template lays its variables out one after the
    other, and the generator streams [answer]. *)
Definition world (found : list Match) (answer : list string) : World :=
  {| DEFAULT_TEMPERATURE := one;
     OPENAI_API_KEY := "sk-env";
     pinecone_init := Ok tt;
     encoding_for_model := fun m =>
       if bool_decide (m = "gpt-3.5-turbo") then Some byte_codec else None;
     tiktoken_lite := Ok byte_codec;
     inquiryChain_call := fun userPrompt _ => Ok userPrompt;
     embedQuery := fun _ => Ok [one];
     getMatchesFromEmbeddings := fun _ _ => Ok found;
     summarizeLongDocument := fun _ _ => Ok "SUMMARY";
     promptQA_format := fun a =>
       Ok (join newline (summaries a :: question a :: conversationHistory a ++ urls a));
     OpenAIStream := fun _ _ _ _ _ => Ok {| chunks := answer; ending := StreamClosed |};
     chain_call := fun _ _ =>
       {| fired := List.map LLMNewToken answer ++ [LLMEnd]; completion := Ok tt |};
     statusText_accepted := reason_phrase |}.

(** A text of [n] tokens under [byte_codec]. *)
Fixpoint text_of_length (n : nat) : string :=
  match n with
  | O => EmptyString
  | S k => String "a"%char (text_of_length k)
  end.

Definition long_text : string := text_of_length (Z.to_nat 14001).

(** [w] with an index that cannot be reached. *)
Definition without_index (w : World) : World :=
  {| DEFAULT_TEMPERATURE := DEFAULT_TEMPERATURE w;
     OPENAI_API_KEY := OPENAI_API_KEY w;
     pinecone_init := pinecone_init w;
     encoding_for_model := encoding_for_model w;
     tiktoken_lite := tiktoken_lite w;
     inquiryChain_call := inquiryChain_call w;
     embedQuery := embedQuery w;
     getMatchesFromEmbeddings := fun _ _ => Throw (OtherError "index unreachable");
     summarizeLongDocument := summarizeLongDocument w;
     promptQA_format := promptQA_format w;
     OpenAIStream := OpenAIStream w;
     chain_call := chain_call w;
     statusText_accepted := statusText_accepted w |}.

(** [w] in which [pinecone.init] fails. *)
Definition without_pinecone (w : World) : World :=
  {| DEFAULT_TEMPERATURE := DEFAULT_TEMPERATURE w;
     OPENAI_API_KEY := OPENAI_API_KEY w;
     pinecone_init := Throw (OtherError "no route to pinecone");
     encoding_for_model := encoding_for_model w;
     tiktoken_lite := tiktoken_lite w;
     inquiryChain_call := inquiryChain_call w;
     embedQuery := embedQuery w;
     getMatchesFromEmbeddings := getMatchesFromEmbeddings w;
     summarizeLongDocument := summarizeLongDocument w;
     promptQA_format := promptQA_format w;
     OpenAIStream := OpenAIStream w;
     chain_call := chain_call w;
     statusText_accepted := statusText_accepted w |}.

(** [w] in which the wasm codec of the edge runtime cannot be built. *)
Definition without_wasm (w : World) : World :=
  {| DEFAULT_TEMPERATURE := DEFAULT_TEMPERATURE w;
     OPENAI_API_KEY := OPENAI_API_KEY w;
     pinecone_init := pinecone_init w;
     encoding_for_model := encoding_for_model w;
     tiktoken_lite := Throw (OtherError "wasm");
     inquiryChain_call := inquiryChain_call w;
     embedQuery := embedQuery w;
     getMatchesFromEmbeddings := getMatchesFromEmbeddings w;
     summarizeLongDocument := summarizeLongDocument w;
     promptQA_format := promptQA_format w;
     OpenAIStream := OpenAIStream w;
     chain_call := chain_call w;
     statusText_accepted := statusText_accepted w |}.

(** [w] in which the completion endpoint answers with an error, which
    [OpenAIStream] throws as an [OpenAIError] with that message. *)
Definition with_openai_error (message : string) (w : World) : World :=
  {| DEFAULT_TEMPERATURE := DEFAULT_TEMPERATURE w;
     OPENAI_API_KEY := OPENAI_API_KEY w;
     pinecone_init := pinecone_init w;
     encoding_for_model := encoding_for_model w;
     tiktoken_lite := tiktoken_lite w;
     inquiryChain_call := inquiryChain_call w;
     embedQuery := embedQuery w;
     getMatchesFromEmbeddings := getMatchesFromEmbeddings w;
     summarizeLongDocument := summarizeLongDocument w;
     promptQA_format := promptQA_format w;
     OpenAIStream := fun _ _ _ _ _ => Throw (OpenAIError message);
     chain_call := chain_call w;
     statusText_accepted := statusText_accepted w |}.

(** [w] in which the stream of the answer breaks after the chunks [cs]. *)
Definition with_broken_stream (cs : list string) (w : World) : World :=
  {| DEFAULT_TEMPERATURE := DEFAULT_TEMPERATURE w;
     OPENAI_API_KEY := OPENAI_API_KEY w;
     pinecone_init := pinecone_init w;
     encoding_for_model := encoding_for_model w;
     tiktoken_lite := tiktoken_lite w;
     inquiryChain_call := inquiryChain_call w;
     embedQuery := embedQuery w;
     getMatchesFromEmbeddings := getMatchesFromEmbeddings w;
     summarizeLongDocument := summarizeLongDocument w;
     promptQA_format := promptQA_format w;
     OpenAIStream := fun _ _ _ _ _ =>
       Ok {| chunks := cs; ending := StreamErrored (OtherError "reset") |};
     chain_call := chain_call w;
     statusText_accepted := statusText_accepted w |}.

Definition user (s : string) : Message := {| role := RoleUser; content := s |}.
Definition assistant (s : string) : Message := {| role := RoleAssistant; content := s |}.

Definition request (modelId : string) (limit : Z) (history : list Message)
    (temp : JsOpt number) : ChatBody :=
  {| model := {| id := modelId; tokenLimit := limit |};
     messages := history;
     key := "sk-request";
     prompt := "q";
     temperature := temp |}.
End Sample.

(** * Context deduplication: the source against its specification *)

Section FirstBy.
Context {A : Type} (key : A -> string).

Lemma filter_all (P : A -> Prop) `{!forall x, Decision (P x)} (l : list A) :
  Forall P l -> filter P l = l.
Proof.
  induction 1 as [|x l Hx _ IH]; [done|].
  rewrite filter_cons, decide_True by done. by rewrite IH.
Qed.

Lemma fmap_filter_key (k : string) (l : list A) :
  key <$> filter (fun y => key y <> k) l = filter (fun s => s <> k) (key <$> l).
Proof.
  induction l as [|x l IH]; [done|].
  rewrite fmap_cons, !filter_cons.
  destruct (decide (key x <> k)); [rewrite fmap_cons|]; by rewrite IH.
Qed.

Lemma fold_add_new (l acc : list A) :
  fold_left (add_new key) l acc
  = acc ++ filter (fun x => key x ∉ key <$> acc) (first_by key l).
Proof.
  revert acc. induction l as [|x l IH]; intros acc; simpl.
  { by rewrite app_nil_r. }
  rewrite IH. unfold add_new. rewrite filter_cons. case_bool_decide as Hin.
  - rewrite decide_False by (intros Hn; by apply Hn).
    f_equal. rewrite list_filter_filter. apply list_filter_iff.
    intros y.
    assert (key y ∉ key <$> acc -> key y <> key x)
      by (intros Hy Heq; apply Hy; by rewrite Heq).
    tauto.
  - rewrite decide_True by done.
    rewrite <- app_assoc. simpl. do 2 f_equal.
    rewrite list_filter_filter. apply list_filter_iff.
    intros y. rewrite fmap_app, elem_of_app. simpl.
    rewrite list_elem_of_singleton. tauto.
Qed.

Lemma fold_add_new_nil (l : list A) : fold_left (add_new key) l [] = first_by key l.
Proof.
  rewrite fold_add_new. simpl. apply filter_all, Forall_forall.
  intros x _. apply not_elem_of_nil.
Qed.

Lemma first_by_keys (l : list A) (k : string) :
  k ∈ key <$> first_by key l <-> k ∈ key <$> l.
Proof.
  induction l as [|x l IH]; [done|]. cbn [first_by].
  rewrite !fmap_cons, !elem_of_cons, fmap_filter_key, list_elem_of_filter, IH.
  destruct (decide (k = key x)); tauto.
Qed.

Lemma first_by_NoDup (l : list A) : NoDup (key <$> first_by key l).
Proof.
  induction l as [|x l IH]; cbn [first_by]; [constructor|].
  rewrite fmap_cons, fmap_filter_key. constructor.
  - rewrite list_elem_of_filter. intros [Hne _]. by apply Hne.
  - by apply NoDup_filter.
Qed.

Lemma first_by_id (l : list A) : NoDup (key <$> l) -> first_by key l = l.
Proof.
  induction l as [|x l IH]; [done|].
  rewrite fmap_cons, NoDup_cons. intros [Hx Hl]. cbn [first_by].
  rewrite IH by done. f_equal. apply filter_all, Forall_forall.
  intros y Hy Heq. apply Hx. rewrite <- Heq. by apply list_elem_of_fmap_2.
Qed.

Lemma first_by_idemp (l : list A) : first_by key (first_by key l) = first_by key l.
Proof. apply first_by_id, first_by_NoDup. Qed.

(** Every representative is the first element of the input with its key. *)
Lemma first_by_first (l : list A) (x : A) :
  x ∈ first_by key l ->
  exists i, list_find (fun y => key y = key x) l = Some (i, x).
Proof.
  induction l as [|y l IH]; cbn [first_by].
  { intros H. by apply elem_of_nil in H. }
  rewrite elem_of_cons, list_elem_of_filter. intros [->|[Hne Hin]].
  - exists 0%nat. cbn. by rewrite decide_True.
  - destruct (IH Hin) as [i Hi]. exists (S i). cbn.
    rewrite decide_False by (intros Heq; by apply Hne).
    by rewrite Hi.
Qed.
End FirstBy.

Lemma first_by_fmap {A B} (key : B -> string) (f : A -> B) (l : list A) :
  first_by key (f <$> l) = f <$> first_by (fun x => key (f x)) l.
Proof.
  induction l as [|x l IH]; [done|]. cbn [first_by fmap list_fmap].
  change (list_fmap A B f l) with (f <$> l). rewrite IH. f_equal.
  generalize (first_by (fun x0 => key (f x0)) l). intros l'.
  induction l' as [|y l' IH']; [done|].
  rewrite fmap_cons, !filter_cons.
  destruct (decide (key (f y) <> key (f x))); [rewrite fmap_cons|]; by rewrite IH'.
Qed.


Section FirstByOrder.
Context {A : Type} (key : A -> string).

Lemma filter_lookup_order (P : A -> Prop) `{!forall x, Decision (P x)}
    (l : list A) (i j : nat) (x y : A) :
  (i < j)%nat -> filter P l !! i = Some x -> filter P l !! j = Some y ->
  exists i' j', (i' < j')%nat /\ l !! i' = Some x /\ l !! j' = Some y /\ P x /\ P y.
Proof.
  revert i j. induction l as [|h l IH]; intros i j Hij Hx Hy.
  { by rewrite filter_nil in Hx. }
  rewrite filter_cons in Hx, Hy. destruct (decide (P h)) as [Hh|Hh].
  - destruct i as [|i], j as [|j]; try lia.
    + injection Hx as ->. cbn in Hy.
      assert (Hin : y ∈ filter P l) by (eapply list_elem_of_lookup_2; eauto).
      apply list_elem_of_filter in Hin as [Py Hin].
      apply list_elem_of_lookup_1 in Hin as [j' Hj'].
      exists 0%nat, (S j'). repeat split; try done. lia.
    + cbn in Hx, Hy. destruct (IH i j ltac:(lia) Hx Hy) as (i' & j' & ? & ? & ? & ? & ?).
      exists (S i'), (S j'). repeat split; try done. lia.
  - destruct (IH i j Hij Hx Hy) as (i' & j' & ? & ? & ? & ? & ?).
    exists (S i'), (S j'). repeat split; try done. lia.
Qed.

(** The representatives come in the order in which their keys first occur. *)
Lemma first_by_order (l : list A) (i j : nat) (x y : A) :
  (i < j)%nat -> first_by key l !! i = Some x -> first_by key l !! j = Some y ->
  exists a b, (a < b)%nat
    /\ list_find (fun z => key z = key x) l = Some (a, x)
    /\ list_find (fun z => key z = key y) l = Some (b, y).
Proof.
  revert i j. induction l as [|h l IH]; intros i j Hij Hx Hy; [done|].
  cbn [first_by] in Hx, Hy. destruct i as [|i], j as [|j]; try lia.
  - injection Hx as ->. cbn in Hy.
    assert (Hin : y ∈ filter (fun z => key z <> key x) (first_by key l))
      by (eapply list_elem_of_lookup_2; eauto).
    apply list_elem_of_filter in Hin as [Hne Hin].
    destruct (first_by_first key l y Hin) as [b Hb].
    exists 0%nat, (S b). split; [lia|]. split; cbn.
    + by rewrite decide_True.
    + rewrite decide_False by (intros Heq; by apply Hne). by rewrite Hb.
  - cbn in Hx, Hy.
    assert (Hlt0 : (i < j)%nat) by lia.
    destruct (filter_lookup_order _ _ _ _ _ _ Hlt0 Hx Hy)
      as (i' & j' & Hlt & Hx' & Hy' & Px & Py).
    destruct (IH i' j' Hlt Hx' Hy') as (a & b & Hab & Ha & Hb).
    exists (S a), (S b). split; [lia|]. split; cbn.
    + rewrite decide_False by (intros Heq; by apply Px). by rewrite Ha.
    + rewrite decide_False by (intros Heq; by apply Py). by rewrite Hb.
Qed.
End FirstByOrder.

Lemma fold_left_ext {A B} (f g : A -> B -> A) (l : list B) (a : A) :
  (forall a x, f a x = g a x) -> fold_left f l a = fold_left g l a.
Proof.
  intros Hfg. revert a. induction l as [|x l IH]; intros a; [done|].
  simpl. by rewrite Hfg, IH.
Qed.

Lemma JsSet_of_array_first (arr : list string) :
  JsSet.of_array arr = first_by (fun s => s) arr.
Proof.
  unfold JsSet.of_array, JsSet.empty. rewrite <- fold_add_new_nil.
  apply fold_left_ext. intros s x.
  unfold JsSet.add, JsSet.has, add_new. by rewrite list_fmap_id.
Qed.

Lemma collect_add_new (map : JsMap.t) (m : Match) :
  collect map m = add_new fst map (entry_of m).
Proof.
  unfold collect, add_new, JsMap.set, JsMap.has, entry_of. simpl.
  by case_bool_decide.
Qed.

Lemma document_map_first (matches : list Match) :
  document_map matches = entry_of <$> first_seen matches.
Proof.
  unfold document_map, JsMap.empty, first_seen.
  rewrite <- (first_by_fmap fst entry_of), <- fold_add_new_nil.
  generalize (@nil (string * string)). induction matches as [|m ms IH]; intros acc; [done|].
  simpl. by rewrite IH, collect_add_new.
Qed.

Lemma urls_of_first (matches : list Match) :
  urls_of matches = (fun m => url (metadata m)) <$> first_seen matches.
Proof.
  unfold urls_of, JsSet.to_array, first_seen.
  rewrite JsSet_of_array_first.
  apply (first_by_fmap (fun s => s) (fun m => url (metadata m))).
Qed.

Lemma fullDocuments_of_first (matches : list Match) :
  fullDocuments_of matches = (fun m => text (metadata m)) <$> first_seen matches.
Proof.
  unfold fullDocuments_of, JsMap.entries. rewrite document_map_first.
  change (List.map ?f ?l) with (f <$> l). rewrite <- list_fmap_compose. done.
Qed.

(** C4. The Context Deduplicator ([urls_of], [fullDocuments_of]) maps the
    empty input to empty outputs; it yields exactly one source identifier
    per distinct url of the input and as many documents; the document at a
    position is the text of the first match carrying the url at that
    position; both lists follow the order in which the urls first occur;
    deduplicating the representatives again changes nothing, and an input
    whose urls are already distinct is returned as it is. *)
Theorem dedup_first_occurrence (matches : list Match) :
  let key := fun m : Match => url (metadata m) in
  let txt := fun m : Match => text (metadata m) in
  (urls_of [] = [] /\ fullDocuments_of [] = [])
  /\ (urls_of matches = key <$> first_seen matches
      /\ fullDocuments_of matches = txt <$> first_seen matches)
  /\ NoDup (urls_of matches)
  /\ (forall u, u ∈ urls_of matches <-> u ∈ key <$> matches)
  /\ length (fullDocuments_of matches) = length (urls_of matches)
  /\ (forall i u, urls_of matches !! i = Some u ->
        exists k m, list_find (fun m' => key m' = u) matches = Some (k, m)
                    /\ fullDocuments_of matches !! i = Some (txt m))
  /\ (forall i j u v, (i < j)%nat ->
        urls_of matches !! i = Some u -> urls_of matches !! j = Some v ->
        exists a b ma mb, (a < b)%nat
          /\ list_find (fun m' => key m' = u) matches = Some (a, ma)
          /\ list_find (fun m' => key m' = v) matches = Some (b, mb))
  /\ (urls_of (first_seen matches) = urls_of matches
      /\ fullDocuments_of (first_seen matches) = fullDocuments_of matches)
  /\ (NoDup (key <$> matches) ->
        urls_of matches = key <$> matches /\ fullDocuments_of matches = txt <$> matches).
Proof.
  intros key txt.
  split; [done|].
  split; [split; [apply urls_of_first | apply fullDocuments_of_first]|].
  rewrite !urls_of_first, !fullDocuments_of_first. fold key txt.
  unfold first_seen. fold key. rewrite first_by_idemp.
  split; [apply first_by_NoDup|].
  split; [intros u; apply first_by_keys|].
  split; [by rewrite !length_fmap|].
  split; [|split; [|split; [done|]]].
  - intros i u Hu. rewrite list_lookup_fmap in Hu.
    destruct (first_by key matches !! i) as [m|] eqn:Hm; [|done].
    injection Hu as <-.
    destruct (first_by_first key matches m) as [k Hk].
    { eapply list_elem_of_lookup_2; eauto. }
    exists k, m. split; [done|]. by rewrite list_lookup_fmap, Hm.
  - intros i j u v Hij Hu Hv. rewrite list_lookup_fmap in Hu, Hv.
    destruct (first_by key matches !! i) as [mu|] eqn:Hmu; [|done].
    destruct (first_by key matches !! j) as [mv|] eqn:Hmv; [|done].
    injection Hu as <-. injection Hv as <-.
    destruct (first_by_order key matches i j mu mv Hij Hmu Hmv) as (a & b & ? & ? & ?).
    by exists a, b, mu, mv.
  - intros Hnd. by rewrite first_by_id.
Qed.

Lemma dedup_first_occurrence_witness :
  let ms := [Sample.doc "u1" "aaa"; Sample.doc "u2" "bb"; Sample.doc "u1" "cc"] in
  let ds := [Sample.doc "u1" "aaa"; Sample.doc "u2" "bb"] in
  (urls_of ms !! 1%nat = Some "u2" /\ fullDocuments_of ms !! 1%nat = Some "bb")
  /\ (urls_of ds = ["u1"; "u2"] /\ fullDocuments_of ds = ["aaa"; "bb"]).
Proof.
  intros ms ds. split.
  - destruct (dedup_first_occurrence ms) as (_ & _ & _ & _ & _ & Hfirst & _).
    destruct (Hfirst 1%nat "u2" eq_refl) as (k & m & Hk & Hdoc).
    split; [reflexivity|]. rewrite Hdoc.
    vm_compute in Hk. injection Hk as _ <-. reflexivity.
  - destruct (dedup_first_occurrence ds) as (_ & _ & _ & _ & _ & _ & _ & _ & Hnoop).
    apply Hnoop. vm_compute. repeat constructor; rewrite ?elem_of_cons, ?elem_of_nil.
    + intros [H|H]; [discriminate H | exact H].
    + intros H; exact H.
Defined.

(** * Budget allocation *)

Section Budget.
Variable encoding : Tiktoken.
Variable limit : Z.
Variable messages : list Message.

Lemma token_count_nonneg (s : string) : 0 <= token_count encoding s.
Proof. unfold token_count. lia. Qed.

Lemma turn_tokens_nonneg (turns : list Message) : 0 <= turn_tokens encoding turns.
Proof.
  induction turns as [|m turns IH]; simpl; [lia|].
  pose proof (token_count_nonneg (content m)). lia.
Qed.

Lemma turn_tokens_snoc (turns : list Message) (m : Message) :
  turn_tokens encoding (turns ++ [m])
  = turn_tokens encoding turns + token_count encoding (content m).
Proof. induction turns as [|m' turns IH]; simpl; lia. Qed.

(** The loop entered below index [upto] keeps the turns of indices
    [k .. upto - 1] for some [k], in their order, in front of what it had;
    it counts their tokens; and if [k] is not 0, the turn of index [k - 1]
    is the one that did not fit. *)
Lemma select_turns_suffix (upto : nat) (tokenCount : Z) (acc : list Message) :
  (upto <= length messages)%nat ->
  exists k : nat,
    (k <= upto)%nat
    /\ select_turns encoding limit messages upto tokenCount acc
       = Ok (tokenCount + turn_tokens encoding (drop k (take upto messages)),
             drop k (take upto messages) ++ acc)
    /\ (k = 0%nat
        \/ exists m, messages !! (k - 1)%nat = Some m
             /\ tokenCount + turn_tokens encoding (drop k (take upto messages))
                + token_count encoding (content m) + 1000 > limit).
Proof.
  revert tokenCount acc. induction upto as [|i IH]; intros tokenCount acc Hlen.
  { exists 0%nat. simpl. rewrite Z.add_0_r. auto. }
  destruct (lookup_lt_is_Some_2 messages i) as [m Hm]; [lia|].
  simpl. rewrite Hm. fold (token_count encoding (content m)).
  rewrite (take_S_r _ _ _ Hm).
  destruct (tokenCount + token_count encoding (content m) + 1000 >? limit) eqn:Hfit.
  - exists (S i). split; [lia|].
    rewrite drop_ge by (rewrite length_app, length_take; simpl; lia).
    simpl. rewrite Z.add_0_r, Nat.sub_0_r. split; [done|].
    right. exists m. split; [done|]. apply Z.gtb_lt in Hfit. lia.
  - destruct (IH (tokenCount + token_count encoding (content m)) (m :: acc))
      as (k & Hk & Hrun & Hstop); [lia|].
    exists k. split; [lia|].
    rewrite drop_app_le by (rewrite length_take; lia).
    rewrite turn_tokens_snoc, <- app_assoc. simpl.
    rewrite Hrun. split; [f_equal; f_equal; lia|].
    destruct Hstop as [->|(m' & Hm' & Hover)]; [by left|].
    right. exists m'. split; [done|]. lia.
Qed.

(** Either nothing was admitted, or what was admitted fits the budget. *)
Lemma select_turns_fits (upto : nat) (tokenCount : Z) (acc : list Message)
    (final : Z) (selected : list Message) :
  select_turns encoding limit messages upto tokenCount acc = Ok (final, selected) ->
  (final = tokenCount /\ selected = acc) \/ final + 1000 <= limit.
Proof.
  revert tokenCount acc. induction upto as [|i IH]; intros tokenCount acc; simpl.
  { intros [= <- <-]. by left. }
  destruct (messages !! i) as [m|]; [|done].
  fold (token_count encoding (content m)).
  destruct (tokenCount + token_count encoding (content m) + 1000 >? limit) eqn:Hfit.
  { intros [= <- <-]. by left. }
  intros Hrun. apply IH in Hrun as [[-> _]|Hle]; [|by right].
  right. rewrite Z.gtb_ltb, Z.ltb_ge in Hfit. lia.
Qed.
End Budget.

Lemma budget_select_suffix (encoding : Tiktoken) (m : OpenAIModel)
    (promptToSend : string) (messages : list Message) :
  exists k : nat,
    (k <= length messages)%nat
    /\ budget_select encoding m promptToSend messages
       = Ok (token_count encoding promptToSend + turn_tokens encoding (drop k messages),
             drop k messages)
    /\ (k = 0%nat
        \/ exists turn, messages !! (k - 1)%nat = Some turn
             /\ token_count encoding promptToSend + turn_tokens encoding (drop k messages)
                + token_count encoding (content turn) + 1000 > tokenLimit m).
Proof.
  destruct (select_turns_suffix encoding (tokenLimit m) messages (length messages)
              (token_count encoding promptToSend) [] (le_n _)) as (k & Hk & Hrun & Hstop).
  rewrite firstn_all, app_nil_r in Hrun. rewrite firstn_all in Hstop.
  exists k. by repeat split.
Qed.

Lemma turn_tokens_app (encoding : Tiktoken) (l l' : list Message) :
  turn_tokens encoding (l ++ l') = turn_tokens encoding l + turn_tokens encoding l'.
Proof. induction l as [|m l IH]; simpl; lia. Qed.

(** A shorter suffix holds no more tokens. *)
Lemma turn_tokens_drop_le (encoding : Tiktoken) (l : list Message) (i j : nat) :
  (i <= j)%nat -> turn_tokens encoding (drop j l) <= turn_tokens encoding (drop i l).
Proof.
  intros Hij. replace j with (i + (j - i))%nat by lia.
  rewrite <- drop_drop.
  rewrite <- (take_drop (j - i) (drop i l)) at 2.
  rewrite turn_tokens_app.
  pose proof (turn_tokens_nonneg encoding (take (j - i) (drop i l))). lia.
Qed.

(** The cut made by the loop: the suffix kept fits, and with one more turn
    it would not. *)
Lemma budget_select_cut (encoding : Tiktoken) (m : OpenAIModel)
    (promptToSend : string) (messages : list Message) :
  exists k : nat,
    (k <= length messages)%nat
    /\ budget_select encoding m promptToSend messages
       = Ok (token_count encoding promptToSend + turn_tokens encoding (drop k messages),
             drop k messages)
    /\ ((k < length messages)%nat ->
        token_count encoding promptToSend + turn_tokens encoding (drop k messages) + 1000
        <= tokenLimit m)
    /\ ((0 < k)%nat ->
        token_count encoding promptToSend
        + turn_tokens encoding (drop (k - 1) messages) + 1000 > tokenLimit m).
Proof.
  destruct (budget_select_suffix encoding m promptToSend messages) as (k & Hk & Hrun & Hstop).
  exists k. split; [done|]. split; [done|]. split.
  - intros Hlt. apply select_turns_fits in Hrun as [[_ Hnil]|Hle]; [|done].
    apply (f_equal length) in Hnil. rewrite length_drop in Hnil. simpl in Hnil. lia.
  - intros Hpos. destruct Hstop as [->|(turn & Hturn & Hover)]; [lia|].
    rewrite (drop_S _ _ _ Hturn). replace (S (k - 1)) with k by lia. simpl. lia.
Qed.

(** C2. The turns admitted by the selection loop are the turns of indices
    [k], [k + 1], ... up to the newest, for one index [k], in the order of
    the history (so every turn more recent than an admitted one is
    admitted); the count is the prompt's plus theirs; when [k] is not 0 the
    turn just before, of index [k - 1], did not fit, and nothing older is
    looked at; and every admitted turn did pass the check when the walk
    reached it, the tokens of the newer turns being already counted: so the
    walk stopped at the first turn, from the newest, that fails. *)
Theorem selection_is_newest_suffix (encoding : Tiktoken) (m : OpenAIModel)
    (promptToSend : string) (messages : list Message) :
  exists (k : nat) (selected : list Message),
    (k <= length messages)%nat
    /\ budget_select encoding m promptToSend messages
       = Ok (token_count encoding promptToSend + turn_tokens encoding selected, selected)
    /\ selected = drop k messages
    /\ messages = take k messages ++ selected
    /\ (forall i : nat, (k <= i)%nat -> selected !! (i - k)%nat = messages !! i)
    /\ (k = 0%nat
        \/ exists turn, messages !! (k - 1)%nat = Some turn
             /\ token_count encoding promptToSend + turn_tokens encoding selected
                + token_count encoding (content turn) + 1000 > tokenLimit m)
    /\ (forall (j : nat) (turn : Message),
          (k <= j)%nat -> messages !! j = Some turn ->
          token_count encoding promptToSend + turn_tokens encoding (drop (S j) messages)
          + token_count encoding (content turn) + 1000 <= tokenLimit m).
Proof.
  destruct (budget_select_suffix encoding m promptToSend messages) as (k & Hk & Hrun & Hstop).
  exists k, (drop k messages). repeat split; try done.
  - by rewrite take_drop.
  - intros i Hi. rewrite lookup_drop. f_equal. lia.
  - intros j turn Hkj Hturn.
    assert (Hj : (j < length messages)%nat) by (eapply lookup_lt_Some; eauto).
    assert (Hfit : token_count encoding promptToSend
                   + turn_tokens encoding (drop k messages) + 1000 <= tokenLimit m).
    { apply select_turns_fits in Hrun as [[_ Hnil]|Hle]; [|done].
      apply (f_equal length) in Hnil. rewrite length_drop in Hnil. simpl in Hnil. lia. }
    pose proof (turn_tokens_drop_le encoding messages k j Hkj) as Hle.
    rewrite (drop_S _ _ _ Hturn) in Hle. simpl in Hle. lia.
Qed.

Lemma selection_is_newest_suffix_witness :
  let history := [Sample.user "hi"; Sample.assistant "a long answer"; Sample.user "ok"] in
  let m := {| id := "gpt-3.5-turbo"; tokenLimit := 1010 |} in
  budget_select Sample.byte_codec m "hello" history = Ok (7, [Sample.user "ok"])
  /\ exists k : nat,
       [Sample.user "ok"] = drop k history
       /\ (forall j turn, (k <= j)%nat -> history !! j = Some turn ->
           token_count Sample.byte_codec "hello"
           + turn_tokens Sample.byte_codec (drop (S j) history)
           + token_count Sample.byte_codec (content turn) + 1000 <= tokenLimit m).
Proof.
  intros history m. split; [reflexivity|].
  destruct (selection_is_newest_suffix Sample.byte_codec m "hello" history)
    as (k & selected & _ & Hrun & Hsel & _ & _ & _ & Hpassed).
  exists k. split; [|exact Hpassed].
  change (budget_select Sample.byte_codec m "hello" history)
    with (@Ok Failure (Z * list Message) (7, [Sample.user "ok"])) in Hrun.
  injection Hrun as _ Heq. rewrite Heq. exact Hsel.
Defined.

(** The older turn ["hi"] would fit, yet it is not admitted once the longer
    turn after it has stopped the walk. *)
Example older_small_turn_is_not_considered :
  budget_select Sample.byte_codec {| id := "gpt-3.5-turbo"; tokenLimit := 1010 |} "hello"
    [Sample.user "hi"; Sample.assistant "a long answer"; Sample.user "ok"]
  = Ok (7, [Sample.user "ok"])
  /\ 7 + token_count Sample.byte_codec "hi" + 1000 <= 1010.
Proof. split; [reflexivity | vm_compute; discriminate]. Qed.

(** C7. When the rendered prompt alone, with the reserve of 1000, exceeds
    the model's token limit, the selection loop ends normally with no turn
    admitted and the count left at the prompt's. *)
Theorem prompt_over_budget_admits_nothing (encoding : Tiktoken) (m : OpenAIModel)
    (promptToSend : string) (messages : list Message) :
  token_count encoding promptToSend + 1000 > tokenLimit m ->
  budget_select encoding m promptToSend messages
  = Ok (token_count encoding promptToSend, []).
Proof.
  intros Hover. unfold budget_select. fold (token_count encoding promptToSend).
  destruct (length messages) as [|i] eqn:Hlen; [done|].
  destruct (lookup_lt_is_Some_2 messages i) as [turn Hturn]; [lia|].
  simpl. rewrite Hturn. fold (token_count encoding (content turn)).
  pose proof (token_count_nonneg encoding (content turn)).
  destruct (_ >? _) eqn:Hfit; [done|].
  rewrite Z.gtb_ltb, Z.ltb_ge in Hfit. lia.
Qed.

Lemma prompt_over_budget_admits_nothing_witness :
  budget_select Sample.byte_codec {| id := "gpt-3.5-turbo"; tokenLimit := 1004 |} "hello"
    [Sample.user "hi"; Sample.user ""]
  = Ok (5, []).
Proof.
  apply (prompt_over_budget_admits_nothing Sample.byte_codec
           {| id := "gpt-3.5-turbo"; tokenLimit := 1004 |} "hello"
           [Sample.user "hi"; Sample.user ""]).
  vm_compute. reflexivity.
Defined.

(** C1, as stated, fails: with a prompt of 5 tokens and a limit of 1004 the
    loop ends with [tokenCount = 5], and 5 + 1000 exceeds 1004. *)
Lemma budget_exceeded_by_prompt_alone :
  budget_select Sample.byte_codec {| id := "gpt-3.5-turbo"; tokenLimit := 1004 |} "hello"
    [Sample.user "hi"]
  = Ok (5, [])
  /\ ~ (5 + 1000 <= tokenLimit {| id := "gpt-3.5-turbo"; tokenLimit := 1004 |}).
Proof. split; [reflexivity | simpl; lia]. Qed.

(** C1, amended. The loop always ends with [tokenCount] equal to the
    prompt's tokens plus those of the admitted turns; whenever the rendered
    prompt alone fits ([prompt tokens + 1000 <= tokenLimit]), and whenever
    at least one turn is admitted, [tokenCount + 1000 <= tokenLimit]. *)
Theorem budget_respected_when_prompt_fits (encoding : Tiktoken) (m : OpenAIModel)
    (promptToSend : string) (messages : list Message) :
  exists selected : list Message,
    budget_select encoding m promptToSend messages
    = Ok (token_count encoding promptToSend + turn_tokens encoding selected, selected)
    /\ (token_count encoding promptToSend + 1000 <= tokenLimit m ->
        token_count encoding promptToSend + turn_tokens encoding selected + 1000
        <= tokenLimit m)
    /\ (selected <> [] ->
        token_count encoding promptToSend + turn_tokens encoding selected + 1000
        <= tokenLimit m).
Proof.
  destruct (budget_select_suffix encoding m promptToSend messages) as (k & _ & Hrun & _).
  exists (drop k messages). split; [done|].
  apply select_turns_fits in Hrun as [[Heq Hnil]|Hle].
  - rewrite Hnil. simpl. split; [lia | done].
  - split; intros _; exact Hle.
Qed.

Lemma budget_respected_when_prompt_fits_witness :
  budget_select Sample.byte_codec {| id := "gpt-3.5-turbo"; tokenLimit := 1010 |} "hello"
    [Sample.user "hi"; Sample.assistant "a long answer"; Sample.user "ok"]
  = Ok (7, [Sample.user "ok"])
  /\ 7 + 1000 <= 1010.
Proof.
  destruct (budget_respected_when_prompt_fits Sample.byte_codec
              {| id := "gpt-3.5-turbo"; tokenLimit := 1010 |} "hello"
              [Sample.user "hi"; Sample.assistant "a long answer"; Sample.user "ok"])
    as (selected & Hrun & Hfit & _).
  assert (Hprompt : token_count Sample.byte_codec "hello" + 1000
                    <= tokenLimit {| id := "gpt-3.5-turbo"; tokenLimit := 1010 |})
    by (vm_compute; discriminate).
  specialize (Hfit Hprompt).
  vm_compute in Hrun. injection Hrun as Htotal <-.
  split; [reflexivity|]. vm_compute. discriminate.
Defined.

(** * Streaming relay *)

Lemma readAndWrite_closed (cs : list string) (st : HState) :
  NodeStream.readAndWrite cs StreamClosed st
  = (Ok tt, extend st [] ((ResWrite <$> cs) ++ [ResEnd])).
Proof.
  revert st. induction cs as [|c cs IH]; intros st.
  - unfold extend. simpl. by rewrite app_nil_r.
  - cbn [NodeStream.readAndWrite]. unfold bind, detach, res_op at 1. rewrite IH.
    unfold extend. simpl. rewrite app_nil_r. by rewrite <- !app_assoc.
Qed.

(** A stream that breaks after at least one chunk: the chunks are written,
    the rejection of the inner call reaches nobody, [res] is left open. *)
Lemma readAndWrite_errored (c : string) (cs : list string) (err : Error) (st : HState) :
  NodeStream.readAndWrite (c :: cs) (StreamErrored err) st
  = (Ok tt, extend st [EvUnhandledRejection err] (ResWrite <$> (c :: cs))).
Proof.
  revert c st. induction cs as [|c' cs IH]; intros c st; [reflexivity|].
  change (NodeStream.readAndWrite (c :: c' :: cs) (StreamErrored err))
    with (res_op (ResWrite c) ;;
          detach (NodeStream.readAndWrite (c' :: cs) (StreamErrored err))).
  unfold bind at 1, detach at 1, res_op at 1. rewrite IH.
  unfold extend. simpl. by rewrite <- !app_assoc.
Qed.

Lemma relay_run (stream : ReadableStream) (st : HState) :
  NodeStream.relay stream st
  = (Ok tt, extend st (relay_effect stream).1 (relay_effect stream).2).
Proof.
  destruct stream as [cs [|err]]; unfold NodeStream.relay, try_catch, relay_effect; simpl.
  - by rewrite readAndWrite_closed.
  - destruct cs as [|c cs]; [|by rewrite readAndWrite_errored].
    unfold bind, emit, res_op, throw, extend. cbn. by rewrite <- ?app_assoc.
Qed.

Lemma run_callbacks_run (fired : list LLMCallback) (st : HState) :
  NodeChain.run_callbacks fired st = (Ok tt, extend st [] (callback_op <$> fired)).
Proof.
  revert st. induction fired as [|c fired IH]; intros st.
  - unfold extend. destruct st. simpl. by rewrite !app_nil_r.
  - cbn [NodeChain.run_callbacks]. unfold bind.
    assert (Hc : NodeChain.on_callback c st = (Ok tt, extend st [] [callback_op c]))
      by (destruct c; unfold extend; simpl; by rewrite app_nil_r).
    rewrite Hc, IH. unfold extend. simpl. by rewrite !app_nil_r, <- app_assoc.
Qed.

Lemma chain_call_streaming_run (w : World) (args : ChainArgs) (st : HState) :
  NodeChain.chain_call_streaming w args st
  = (raise (completion (chain_call w NodeChain.chat_options args)),
     extend st [EvChainCall NodeChain.chat_options args]
       (callback_op <$> fired (chain_call w NodeChain.chat_options args))).
Proof.
  unfold NodeChain.chain_call_streaming, bind, emit, lift, lift_result.
  rewrite run_callbacks_run.
  unfold extend. simpl. by rewrite app_nil_r.
Qed.

Lemma written_writes (cs : list string) : written (ResWrite <$> cs) = cs.
Proof.
  induction cs as [|c cs IH]; [done|].
  change (written (ResWrite <$> c :: cs)) with (c :: written (ResWrite <$> cs)).
  by rewrite IH.
Qed.

Lemma ends_writes (cs : list string) : ends (ResWrite <$> cs) = 0%nat.
Proof. induction cs as [|c cs IH]; [done|]. exact IH. Qed.

Lemma ends_app (ops ops' : list ResOp) : ends (ops ++ ops') = (ends ops + ends ops')%nat.
Proof. unfold ends. by rewrite List.filter_app, length_app. Qed.

Lemma written_app (ops ops' : list ResOp) : written (ops ++ ops') = written ops ++ written ops'.
Proof. apply omap_app. Qed.

Lemma relayed_chunks (stream : ReadableStream) (ops : list ResOp) :
  ops = streaming_headers ++ (relay_effect stream).2 ->
  written ops = chunks stream
  /\ ends ops = match ending stream with StreamClosed => 1%nat | StreamErrored _ => 0%nat end.
Proof.
  intros ->. destruct stream as [cs [|err]].
  - change (relay_effect {| chunks := cs; ending := StreamClosed |}).2
      with ((ResWrite <$> cs) ++ [ResEnd]).
    rewrite !written_app, !ends_app, written_writes, ends_writes. simpl.
    by rewrite app_nil_r.
  - destruct cs as [|c cs]; [done|].
    change (relay_effect {| chunks := c :: cs; ending := StreamErrored err |}).2
      with (ResWrite <$> c :: cs).
    by rewrite written_app, ends_app, written_writes, ends_writes.
Qed.

(** C6. Whatever the producer stream, relaying it adds to the response
    exactly its chunks, each written once and in the order delivered; when
    the producer signals its end the response is ended exactly once, after
    the last chunk (the bare [res.end()] is not called when the stream
    breaks; a stream that breaks before its first chunk is answered with
    status 500 and [res.end(body)], one that breaks later is left open).
    The callbacks of the langchain variant likewise turn the tokens and the
    end signal fired by the producer into response calls one for one, in
    the order fired. *)
Theorem relay_preserves_order (stream : ReadableStream) (st : HState) :
  let st' := final_state (NodeStream.relay stream st) in
  written (res st') = written (res st) ++ chunks stream
  /\ ends (res st')
     = (ends (res st) + match ending stream with StreamClosed => 1 | _ => 0 end)%nat
  /\ (ending stream = StreamClosed ->
      res st' = res st ++ (ResWrite <$> chunks stream) ++ [ResEnd])
  /\ (forall fired,
        res (final_state (NodeChain.run_callbacks fired st))
        = res st ++ (callback_op <$> fired))
  /\ res (final_state (NodeChain.run_callbacks ((LLMNewToken <$> chunks stream) ++ [LLMEnd]) st))
     = res st ++ (ResWrite <$> chunks stream) ++ [ResEnd].
Proof.
  intros st'. unfold st'. clear st'. rewrite relay_run. unfold final_state, extend. simpl.
  split; [|split; [|split; [|split]]].
  - unfold written. rewrite omap_app. f_equal. fold (written (relay_effect stream).2).
    destruct stream as [cs [|err]]; unfold relay_effect; simpl.
    + unfold written. rewrite omap_app. fold (written (ResWrite <$> cs)).
      rewrite written_writes. simpl. by rewrite app_nil_r.
    + destruct cs as [|c cs]; [done|]. apply (written_writes (c :: cs)).
  - rewrite ends_app. f_equal.
    destruct stream as [cs [|err]]; unfold relay_effect; simpl.
    + rewrite ends_app, ends_writes. reflexivity.
    + destruct cs as [|c cs]; [done|]. apply (ends_writes (c :: cs)).
  - intros Hclosed. destruct stream as [cs e]. simpl in Hclosed. subst e. reflexivity.
  - intros fired. by rewrite run_callbacks_run.
  - rewrite run_callbacks_run. simpl. by rewrite fmap_app, <- list_fmap_compose.
Qed.

Lemma relay_preserves_order_witness :
  res (final_state (NodeStream.relay
         {| chunks := ["The"; " answer"; " is"; " 4."]; ending := StreamClosed |}
         (initial true)))
  = [ResWrite "The"; ResWrite " answer"; ResWrite " is"; ResWrite " 4."; ResEnd].
Proof.
  destruct (relay_preserves_order
              {| chunks := ["The"; " answer"; " is"; " 4."]; ending := StreamClosed |}
              (initial true)) as (_ & _ & Hclosed & _).
  rewrite (Hclosed eq_refl). reflexivity.
Defined.

(** A stream that breaks after two chunks: both are written, in order, and
    the response is never ended. *)
Example relay_broken_stream :
  res (final_state (NodeStream.relay
         {| chunks := ["The"; " answer"]; ending := StreamErrored (OtherError "reset") |}
         (initial true)))
  = [ResWrite "The"; ResWrite " answer"].
Proof. reflexivity. Qed.

(** * The handlers, path by path *)

Arguments budget_select : simpl never.
Arguments NodeStream.relay : simpl never.
Arguments NodeChain.chain_call_streaming : simpl never.

(** Unfolds the monadic steps of a handler, leaving the collaborators'
    answers, the deduplication and the selection loop as they are. *)
Ltac run_handler :=
  lazy beta iota zeta delta
    [NodeChain.handler NodeChain.body NodeChain.summarize_if_long NodeChain.last_content
     Edge.handler Edge.body NodeStream.handler NodeStream.body
     try_catch final_state outcome
     ensure_pinecone initPineconeClient acquire_encoding acquire_lite_encoding
     call call_openai encoding_free bind lift lift_result raise emit get_pinecone
     set_pinecone codec_allocated codec_freed ret throw res_op on_error initial
     pinecone live_codecs trace res negb fst snd app extend Nat.pred].

(** Splits on the answer of the next collaborator met on the path. *)
Ltac oracle :=
  match goal with
  | |- context [match pinecone_init ?w with _ => _ end] =>
      destruct (pinecone_init w) as [[]|?] eqn:?
  | |- context [match encoding_for_model ?w ?i with _ => _ end] =>
      destruct (encoding_for_model w i) eqn:?
  | |- context [match tiktoken_lite ?w with _ => _ end] =>
      destruct (tiktoken_lite w) eqn:?
  | |- context [match inquiryChain_call ?w ?a ?b with _ => _ end] =>
      destruct (inquiryChain_call w a b) eqn:?
  | |- context [match array_get ?a ?b with _ => _ end] =>
      destruct (array_get a b) eqn:?
  | |- context [match embedQuery ?w ?a with _ => _ end] =>
      destruct (embedQuery w a) eqn:?
  | |- context [match getMatchesFromEmbeddings ?w ?a ?b with _ => _ end] =>
      destruct (getMatchesFromEmbeddings w a b) eqn:?
  | |- context [if NodeChain.documentTokens_of ?a ?b >? ?c then _ else _] =>
      destruct (NodeChain.documentTokens_of a b >? c) eqn:?
  | |- context [match summarizeLongDocument ?w ?a ?b with _ => _ end] =>
      destruct (summarizeLongDocument w a b) eqn:?
  | |- context [match promptQA_format ?w ?a with _ => _ end] =>
      destruct (promptQA_format w a) eqn:?
  | |- context [match budget_select ?e ?m ?p ?ms with _ => _ end] =>
      destruct (budget_select e m p ms) as [[? ?]|?] eqn:?
  | |- context [match OpenAIStream ?w ?a ?b ?c ?d ?e with _ => _ end] =>
      destruct (OpenAIStream w a b c d e) as [[[|? ?] [|?]]|[?|?]] eqn:?
  | |- context [if statusText_accepted ?w ?m then _ else _] =>
      destruct (statusText_accepted w m) eqn:?
  | |- context [match completion ?r with _ => _ end] =>
      destruct (completion r) as [[]|?] eqn:?
  end.

Ltac step :=
  first [ rewrite relay_run | rewrite chain_call_streaming_run | oracle ]; run_handler.

(** Every path of a handler, from either state of the [pinecone] variable. *)
Ltac all_paths p := run_handler; destruct p; run_handler; repeat step.

Ltac each_call :=
  repeat match goal with |- Forall _ _ => constructor end.

Lemma array_get_last_eq {A} (l : list A) :
  array_get l (Z.of_nat (length l) - 1) = last l.
Proof.
  unfold array_get. rewrite last_lookup. destruct l as [|x l]; [done|].
  destruct (_ <? 0) eqn:Hneg; [apply Z.ltb_lt in Hneg; simpl in Hneg; lia|].
  f_equal. simpl. lia.
Qed.

Lemma format_gets_whole_history (w : World) (req : ChatBody) (p : bool) :
  Forall (fun a => conversationHistory a = content <$> messages req)
    (format_calls (trace (final_state (NodeChain.handler w req (initial p)))))
  /\ Forall (fun a => conversationHistory a = content <$> messages req)
       (format_calls (trace (final_state (Edge.handler w req (initial p)))))
  /\ Forall (fun a => conversationHistory a = content <$> messages req)
       (format_calls (trace (final_state (NodeStream.handler w req (initial p))))).
Proof.
  split; [|split]; all_paths p; each_call; reflexivity.
Qed.

Lemma chain_gets_rendered_prompt (w : World) (req : ChatBody) (p : bool) :
  Forall (fun c => renders_whole_history w req (chain_question c)
                   /\ selected_for (encoding_for_model w (id (model req))) req
                        (chain_question c) (chain_conversationHistory c))
    (chain_calls (trace (final_state (NodeChain.handler w req (initial p))))).
Proof.
  all_paths p; each_call;
    (split; [eexists; split; [eassumption | split; reflexivity]
            | do 2 eexists; split; [reflexivity | eassumption]]).
Qed.

Ltac lite_acquired :=
  unfold lite_codec;
  match goal with H : tiktoken_lite _ = Ok _ |- _ => rewrite H end; reflexivity.

Lemma stream_gets_rendered_prompt (w : World) (req : ChatBody) (p : bool) :
  Forall (fun c => renders_whole_history w req c.1.1
                   /\ selected_for (lite_codec w) req c.1.1 c.2)
    (stream_calls (trace (final_state (Edge.handler w req (initial p)))))
  /\ Forall (fun c => renders_whole_history w req c.1.1
                      /\ selected_for (encoding_for_model w (id (model req))) req c.1.1 c.2)
       (stream_calls (trace (final_state (NodeStream.handler w req (initial p))))).
Proof.
  split; all_paths p; each_call;
    (split; [eexists; split; [eassumption | split; reflexivity]
            | do 2 eexists; split; [first [reflexivity | lite_acquired] | eassumption]]).
Qed.

Ltac with_pinecone Hinit p :=
  destruct Hinit as [->|Hinit]; [|destruct p; [|rewrite Hinit]]; run_handler.

Ltac as_map H := change (fmap ?f ?l) with (List.map f l) in H.

(** When the collaborators answer up to the rendered prompt, the variants
    that call [OpenAIStream] call it once, with that prompt and the turns
    that the loop admits; if it answers with a stream, the run completes. *)
Lemma stream_run_reaches_generation (w : World) (req : ChatBody) (p : bool)
    (encoding : Tiktoken) (promptToSend : string) (tokenCount : Z) (turns : list Message) :
  (p = true \/ pinecone_init w = Ok tt) ->
  stream_pipeline w req promptToSend ->
  budget_select encoding (model req) promptToSend (messages req) = Ok (tokenCount, turns) ->
  let temp := temperatureToUse w (temperature req) in
  (encoding_for_model w (id (model req)) = Some encoding ->
   let run := NodeStream.handler w req (initial p) in
   stream_calls (trace (final_state run)) = [(promptToSend, temp, turns)]
   /\ (forall stream,
        OpenAIStream w (model req) promptToSend temp (OPENAI_API_KEY w) turns = Ok stream ->
        outcome run = Ok RetUndefined
        /\ res (final_state run) = streaming_headers ++ (relay_effect stream).2))
  /\ (tiktoken_lite w = Ok encoding ->
      let run := Edge.handler w req (initial p) in
      stream_calls (trace (final_state run)) = [(promptToSend, temp, turns)]
      /\ (forall stream,
           OpenAIStream w (model req) promptToSend temp (key req) turns = Ok stream ->
           outcome run = Ok (RetStreamResponse stream))).
Proof.
  intros Hinit (inquiry & emb & found & summary & Hinq & Hemb & Hfound & Hsum & Hfmt) Hsel temp.
  as_map Hinq. as_map Hfmt. unfold temp. clear temp.
  split; intros Henc; run_handler; rewrite Henc; with_pinecone Hinit p;
    rewrite Hinq; run_handler; rewrite Hemb; run_handler; rewrite Hfound; run_handler;
    rewrite Hsum; run_handler; rewrite Hfmt; run_handler; rewrite Hsel; run_handler;
    (split; [repeat step; reflexivity|]); intros stream Hstream;
    rewrite Hstream; run_handler; rewrite ?relay_run; try split; reflexivity.
Qed.

(** The same for the langchain variant and its single [chain.call]. *)
Lemma chain_run_reaches_generation (w : World) (req : ChatBody) (p : bool)
    (encoding : Tiktoken) (found : list Match) (promptToSend : string)
    (tokenCount : Z) (turns : list Message) :
  (p = true \/ pinecone_init w = Ok tt) ->
  encoding_for_model w (id (model req)) = Some encoding ->
  chain_pipeline w req encoding found promptToSend ->
  budget_select encoding (model req) promptToSend (messages req) = Ok (tokenCount, turns) ->
  chain_calls (trace (final_state (NodeChain.handler w req (initial p))))
  = [{| chain_summaries := join newline (fullDocuments_of found);
        chain_question := promptToSend;
        chain_conversationHistory := turns;
        chain_urls := urls_of found |}].
Proof.
  intros Hinit Henc (newest & emb & Hlast & Hemb & Hfound & Hsum & Hfmt) Hsel.
  as_map Hfmt. rewrite <- array_get_last_eq in Hlast.
  run_handler. rewrite Henc, Hlast. with_pinecone Hinit p;
    rewrite Hemb; run_handler; rewrite Hfound; run_handler;
    (destruct (NodeChain.documentTokens_of encoding (fullDocuments_of found) >? 14000)
       eqn:Hlong;
     [ destruct Hsum as [Hle|[summary Hsum]];
       [ apply Z.gtb_lt in Hlong; lia | rewrite Hsum ]
     | ]);
    run_handler; rewrite Hfmt; run_handler; rewrite Hsel; run_handler;
    repeat step; reflexivity.
Qed.

(** What the caller of the third variant receives: nothing when the handler
    stopped before streaming, else the two headers and the relayed stream. *)
Lemma stream_handler_response (w : World) (req : ChatBody) (p : bool) :
  res (final_state (NodeStream.handler w req (initial p))) = []
  \/ exists promptToSend temp turns stream,
       OpenAIStream w (model req) promptToSend temp (OPENAI_API_KEY w) turns = Ok stream
       /\ res (final_state (NodeStream.handler w req (initial p)))
          = [ResSetHeader "Content-Type" "text/plain";
             ResSetHeader "Transfer-Encoding" "chunked"] ++ (relay_effect stream).2.
Proof.
  all_paths p; try (left; reflexivity);
    right; do 4 eexists; (split; [eassumption | reflexivity]).
Qed.

(** C10. In the three variants, every call of [promptQA.format] receives as
    [conversationHistory] the content of every message of the request, and
    every generation call receives the prompt rendered from it (as the
    system prompt of [OpenAIStream], or as the [question] of [chain.call]),
    next to which the turns admitted by the selection loop, counted with the
    codec that the handler acquired, are passed as a separate argument. And
    the call is made: whenever the collaborators answer up to the rendered
    prompt, the generator is called exactly once, with that prompt, which
    holds the whole history, and with the admitted turns only. *)
Theorem prompt_embeds_whole_history (w : World) (req : ChatBody) (p : bool) :
  let whole := fun a : FormatArgs => conversationHistory a = content <$> messages req in
  let sent := fun (acquired : option Tiktoken) (promptToSend : string)
                  (turns : list Message) =>
    renders_whole_history w req promptToSend /\ selected_for acquired req promptToSend turns in
  let registered := encoding_for_model w (id (model req)) in
  let temp := temperatureToUse w (temperature req) in
  ((Forall whole (format_calls (trace (final_state (NodeChain.handler w req (initial p)))))
    /\ Forall (fun c => sent registered (chain_question c) (chain_conversationHistory c))
         (chain_calls (trace (final_state (NodeChain.handler w req (initial p))))))
   /\ (Forall whole (format_calls (trace (final_state (Edge.handler w req (initial p)))))
       /\ Forall (fun c => sent (lite_codec w) c.1.1 c.2)
            (stream_calls (trace (final_state (Edge.handler w req (initial p))))))
   /\ (Forall whole (format_calls (trace (final_state (NodeStream.handler w req (initial p)))))
       /\ Forall (fun c => sent registered c.1.1 c.2)
            (stream_calls (trace (final_state (NodeStream.handler w req (initial p)))))))
  /\ ((p = true \/ pinecone_init w = Ok tt) ->
      (forall encoding found promptToSend,
         registered = Some encoding ->
         chain_pipeline w req encoding found promptToSend ->
         exists tokenCount turns,
           budget_select encoding (model req) promptToSend (messages req)
           = Ok (tokenCount, turns)
           /\ chain_calls (trace (final_state (NodeChain.handler w req (initial p))))
              = [{| chain_summaries := join newline (fullDocuments_of found);
                    chain_question := promptToSend;
                    chain_conversationHistory := turns;
                    chain_urls := urls_of found |}])
      /\ (forall encoding promptToSend,
           tiktoken_lite w = Ok encoding ->
           stream_pipeline w req promptToSend ->
           exists tokenCount turns,
             budget_select encoding (model req) promptToSend (messages req)
             = Ok (tokenCount, turns)
             /\ stream_calls (trace (final_state (Edge.handler w req (initial p))))
                = [(promptToSend, temp, turns)])
      /\ (forall encoding promptToSend,
           registered = Some encoding ->
           stream_pipeline w req promptToSend ->
           exists tokenCount turns,
             budget_select encoding (model req) promptToSend (messages req)
             = Ok (tokenCount, turns)
             /\ stream_calls (trace (final_state (NodeStream.handler w req (initial p))))
                = [(promptToSend, temp, turns)])).
Proof.
  intros whole sent registered temp. split.
  - destruct (format_gets_whole_history w req p) as (H1 & H2 & H3).
    destruct (stream_gets_rendered_prompt w req p) as (H4 & H5).
    pose proof (chain_gets_rendered_prompt w req p) as H6.
    repeat split; assumption.
  - intros Hinit. split; [|split].
    + intros encoding found promptToSend Henc Hpipe.
      destruct (budget_select_suffix encoding (model req) promptToSend (messages req))
        as (k & _ & Hsel & _).
      do 2 eexists. split; [exact Hsel|].
      exact (chain_run_reaches_generation w req p encoding found promptToSend _ _
               Hinit Henc Hpipe Hsel).
    + intros encoding promptToSend Henc Hpipe.
      destruct (budget_select_suffix encoding (model req) promptToSend (messages req))
        as (k & _ & Hsel & _).
      do 2 eexists. split; [exact Hsel|].
      destruct (stream_run_reaches_generation w req p encoding promptToSend _ _
                  Hinit Hpipe Hsel) as [_ Hedge].
      by destruct (Hedge Henc).
    + intros encoding promptToSend Henc Hpipe.
      destruct (budget_select_suffix encoding (model req) promptToSend (messages req))
        as (k & _ & Hsel & _).
      do 2 eexists. split; [exact Hsel|].
      destruct (stream_run_reaches_generation w req p encoding promptToSend _ _
                  Hinit Hpipe Hsel) as [Hnode _].
      by destruct (Hnode Henc).
Qed.

(** With a limit of 1030 tokens the loop admits the two newest of three
    turns; the prompt handed to the generator holds the three of them. *)
Lemma prompt_embeds_whole_history_witness :
  let w := Sample.world [Sample.doc "u1" "aaa"] ["ok"] in
  let req := Sample.request "gpt-3.5-turbo" 1030
               [Sample.user "hello"; Sample.assistant "hi"; Sample.user "bye"] JsNull in
  let promptToSend := join newline ["SUMMARY"; "q"; "hello"; "hi"; "bye"; "u1"] in
  let chainPrompt := join newline ["aaa"; "q"; "hello"; "hi"; "bye"; "u1"] in
  let turns := [Sample.assistant "hi"; Sample.user "bye"] in
  (chain_calls (trace (final_state (NodeChain.handler w req (initial false))))
   = [{| chain_summaries := "aaa"; chain_question := chainPrompt;
         chain_conversationHistory := turns; chain_urls := ["u1"] |}]
   /\ stream_calls (trace (final_state (Edge.handler w req (initial false))))
      = [(promptToSend, Sample.one, turns)]
   /\ stream_calls (trace (final_state (NodeStream.handler w req (initial false))))
      = [(promptToSend, Sample.one, turns)])
  /\ renders_whole_history w req chainPrompt
  /\ renders_whole_history w req promptToSend
  /\ selected_for (Some Sample.byte_codec) req chainPrompt turns
  /\ selected_for (Some Sample.byte_codec) req promptToSend turns.
Proof.
  intros w req promptToSend chainPrompt turns.
  destruct (prompt_embeds_whole_history w req false)
    as (((_ & Hchain) & (_ & Hedge) & (_ & Hnode)) & Hmade).
  destruct (Hmade (or_intror eq_refl)) as (Hc & He & Hn).
  assert (Hstream : stream_pipeline w req promptToSend).
  { exists "q", [Sample.one], [Sample.doc "u1" "aaa"], "SUMMARY". repeat split. }
  assert (Hpipe : chain_pipeline w req Sample.byte_codec [Sample.doc "u1" "aaa"] chainPrompt).
  { exists (Sample.user "bye"), [Sample.one]. repeat split.
    left. vm_compute. discriminate. }
  destruct (Hc Sample.byte_codec _ chainPrompt eq_refl Hpipe) as (tc & ts & Hsel & Hcall).
  vm_compute in Hsel. injection Hsel as <- <-.
  destruct (He Sample.byte_codec promptToSend eq_refl Hstream) as (te & tse & Hsele & Hcalle).
  vm_compute in Hsele. injection Hsele as <- <-.
  destruct (Hn Sample.byte_codec promptToSend eq_refl Hstream) as (tn & tsn & Hseln & Hcalln).
  vm_compute in Hseln. injection Hseln as <- <-.
  split; [split; [exact Hcall | split; [exact Hcalle | exact Hcalln]]|].
  rewrite Hcall in Hchain. rewrite Hcalln in Hnode.
  inversion Hchain as [|c rest [Hrc Hsc] _]. inversion Hnode as [|c' rest' [Hrn Hsn] _].
  repeat split; assumption.
Defined.

(** * Temperature *)

Lemma temperatureToUse_spec (w : World) :
  (forall t, temperatureToUse w (JsVal t) = t)
  /\ temperatureToUse w JsNull = DEFAULT_TEMPERATURE w
  /\ temperatureToUse w JsUndefined = DEFAULT_TEMPERATURE w.
Proof. repeat split. Qed.

(** The two variants that call [OpenAIStream] hand it [temperatureToUse]. *)
Lemma stream_variants_pass_temperature (w : World) (req : ChatBody) (p : bool) :
  Forall (fun c => c.1.2 = temperatureToUse w (temperature req))
    (stream_calls (trace (final_state (Edge.handler w req (initial p)))))
  /\ Forall (fun c => c.1.2 = temperatureToUse w (temperature req))
       (stream_calls (trace (final_state (NodeStream.handler w req (initial p))))).
Proof.
  split; all_paths p; each_call; reflexivity.
Qed.

(** C9. The langchain variant (chat.ts 1-185) computes [temperatureToUse]
    and never hands it to the chat model: what the handler does, and what it
    asks of the generator, is the same whatever the request's temperature.
    The two variants that call [OpenAIStream] do hand it the request's
    temperature, or [DEFAULT_TEMPERATURE] when that is null or undefined. *)
Theorem chain_variant_ignores_temperature (w : World) (req : ChatBody) (p : bool) :
  (forall t, NodeChain.handler w (with_temperature t req) (initial p)
             = NodeChain.handler w req (initial p))
  /\ (forall t, chain_calls (trace (final_state
                   (NodeChain.handler w (with_temperature t req) (initial p))))
                = chain_calls (trace (final_state (NodeChain.handler w req (initial p)))))
  /\ (forall c,
        c ∈ stream_calls (trace (final_state (Edge.handler w req (initial p))))
        \/ c ∈ stream_calls (trace (final_state (NodeStream.handler w req (initial p)))) ->
        match temperature req with
        | JsVal t => c.1.2 = t
        | JsNull | JsUndefined => c.1.2 = DEFAULT_TEMPERATURE w
        end).
Proof.
  split; [|split].
  - intros t. reflexivity.
  - intros t. reflexivity.
  - intros c Hc.
    destruct (stream_variants_pass_temperature w req p) as [Hedge Hnode].
    rewrite Forall_forall in Hedge, Hnode.
    assert (Htemp : c.1.2 = temperatureToUse w (temperature req))
      by (destruct Hc as [Hc|Hc]; [apply Hedge | apply Hnode]; exact Hc).
    rewrite Htemp. destruct (temperature req); reflexivity.
Qed.

Lemma chain_variant_ignores_temperature_witness :
  let w := Sample.world [Sample.doc "u1" "aaa"] ["ok"] in
  let req := Sample.request "gpt-3.5-turbo" 4000 [Sample.user "hi"] (JsVal Sample.half) in
  let c := (join newline ["SUMMARY"; "q"; "hi"; "u1"], Sample.half, [Sample.user "hi"]) in
  stream_calls (trace (final_state (NodeStream.handler w req (initial true)))) = [c]
  /\ c.1.2 = Sample.half.
Proof.
  intros w req c.
  assert (Hrun : stream_calls (trace (final_state (NodeStream.handler w req (initial true))))
                 = [c]) by (vm_compute; reflexivity).
  split; [exact Hrun|].
  destruct (chain_variant_ignores_temperature w req true) as (_ & _ & Hpass).
  apply (Hpass c). right. rewrite Hrun. apply list_elem_of_here.
Defined.

(** A request at temperature 0.5: the options of the chat model and the
    variables of the chain carry no temperature. *)
Example chain_call_at_half :
  trace (final_state
    (NodeChain.handler (Sample.world [Sample.doc "u1" "aaa"] ["ok"])
       (Sample.request "gpt-3.5-turbo" 4000 [Sample.user "hi"] (JsVal Sample.half))
       (initial true)))
  = [EvEncodingForModel "gpt-3.5-turbo";
     EvEmbedQuery "hi";
     EvGetMatches [Sample.one] 3;
     EvFormat {| summaries := "aaa"; question := "q";
                 conversationHistory := ["hi"]; urls := ["u1"] |};
     EvEncodingFree;
     EvChainCall
       {| streaming := true; verbose := true; modelName := "gpt-3.5-turbo-16k" |}
       {| chain_summaries := "aaa";
          chain_question := join newline ["aaa"; "q"; "hi"; "u1"];
          chain_conversationHistory := [Sample.user "hi"];
          chain_urls := ["u1"] |}].
Proof. vm_compute. reflexivity. Qed.

(** * Tokenizer initialisation and retrieval *)

Lemma error_response_500 (e : Error) :
  exists statusText,
    @Ok Error Returned (error_response e) = Ok (RetErrorResponse 500 statusText).
Proof. destruct e; eexists; reflexivity. Qed.

(** C5, as stated, fails on the edge variant: the registry has no codec for
    ["no-such-model"], and the handler embeds the query, queries the index
    and answers with the stream. *)
Lemma edge_retrieves_for_unregistered_model :
  let w := Sample.world [Sample.doc "u1" "aaa"] ["ok"] in
  let req := Sample.request "no-such-model" 4000 [Sample.user "hi"] JsNull in
  encoding_for_model w (id (model req)) = None
  /\ outcome (Edge.handler w req (initial false))
     = Ok (RetStreamResponse {| chunks := ["ok"]; ending := StreamClosed |})
  /\ retrieval_calls (trace (final_state (Edge.handler w req (initial false))))
     = [EvEmbedQuery "q"; EvGetMatches [Sample.one] 3].
Proof. vm_compute. repeat split. Qed.

(** C5, amended. In the two variants that pick the codec with
    [encoding_for_model(model.id)], a model id without a registered codec
    makes that call throw before the query is embedded and before the index
    is queried: the [catch] block logs the error and the handler returns a
    [Response] of status 500, no codec having been allocated. The edge
    variant does not read the registry at all (its run is the same under any
    registry), and when building its fixed codec fails it too stops before
    any retrieval call. *)
Theorem unregistered_model_stops_before_retrieval (w : World) (req : ChatBody) (p : bool) :
  let modelId := id (model req) in
  (encoding_for_model w modelId = None ->
   stopped_before_retrieval w p (EvEncodingForModel modelId) (UnsupportedModelError modelId)
     (NodeChain.handler w req (initial p))
   /\ stopped_before_retrieval w p (EvEncodingForModel modelId) (UnsupportedModelError modelId)
        (NodeStream.handler w req (initial p)))
  /\ (forall registry st,
        Edge.handler (with_registry registry w) req st = Edge.handler w req st)
  /\ (forall e, tiktoken_lite w = Throw e ->
        stopped_before_retrieval w p EvTiktokenLite e (Edge.handler w req (initial p))).
Proof.
  intros modelId. unfold modelId. split; [|split].
  - intros Hnone. unfold stopped_before_retrieval.
    split; run_handler; rewrite Hnone; destruct p; run_handler;
      try (destruct (pinecone_init w) as [[]|e] eqn:Hinit; run_handler);
      (split; [apply error_response_500|]); (split; [reflexivity|]); (split; [reflexivity|]);
      intros [Hp|Hp]; try discriminate; auto.
  - reflexivity.
  - intros e He. unfold stopped_before_retrieval.
    run_handler; rewrite He; destruct p; run_handler;
      try (destruct (pinecone_init w) as [[]|e'] eqn:Hinit; run_handler);
      (split; [apply error_response_500|]); (split; [reflexivity|]); (split; [reflexivity|]);
      intros [Hp|Hp]; try discriminate; auto.
Qed.

Lemma unregistered_model_stops_before_retrieval_witness :
  let w := Sample.world [Sample.doc "u1" "aaa"] ["ok"] in
  let req := Sample.request "no-such-model" 4000 [Sample.user "hi"] JsNull in
  (encoding_for_model w (id (model req)) = None
   /\ trace (final_state (NodeStream.handler w req (initial false)))
      = [EvPineconeInit; EvEncodingForModel "no-such-model";
         EvConsoleError (UnsupportedModelError "no-such-model")])
  /\ trace (final_state (Edge.handler (Sample.without_wasm w) req (initial false)))
     = [EvPineconeInit; EvTiktokenLite; EvConsoleError (OtherError "wasm")].
Proof.
  intros w req.
  assert (Hnone : encoding_for_model w (id (model req)) = None) by reflexivity.
  split; [split; [exact Hnone|]|].
  - destruct (unregistered_model_stops_before_retrieval w req false) as [Hnode _].
    destruct (Hnode Hnone) as [_ (_ & _ & _ & Htrace)].
    destruct (Htrace (or_intror eq_refl)) as [_ ->]. reflexivity.
  - destruct (unregistered_model_stops_before_retrieval (Sample.without_wasm w) req false)
      as (_ & _ & Hedge).
    destruct (Hedge (OtherError "wasm") eq_refl) as (_ & _ & _ & Htrace).
    destruct (Htrace (or_intror eq_refl)) as [_ ->]. reflexivity.
Defined.

(** * Codec lifetime *)

(** When the handler completes without entering [catch], the codec has been
    given back: after the loop, whether it ran to the oldest turn or broke
    out early, control reaches [encoding.free()]. *)
Lemma codec_freed_on_completion (w : World) (req : ChatBody) (p : bool) :
  (outcome (NodeChain.handler w req (initial p)) = Ok RetUndefined ->
   live_codecs (final_state (NodeChain.handler w req (initial p))) = 0%nat)
  /\ (forall body, outcome (Edge.handler w req (initial p)) = Ok (RetStreamResponse body) ->
      live_codecs (final_state (Edge.handler w req (initial p))) = 0%nat)
  /\ (outcome (NodeStream.handler w req (initial p)) = Ok RetUndefined ->
      live_codecs (final_state (NodeStream.handler w req (initial p))) = 0%nat).
Proof.
  split; [|split; [intros body|]]; all_paths p; intros Hout; try reflexivity;
    match type of Hout with Ok (error_response ?e) = _ => destruct e; discriminate Hout end.
Qed.

Lemma array_get_last {A} (older : list A) (last : A) :
  array_get (older ++ [last]) (Z.of_nat (length (older ++ [last])) - 1) = Some last.
Proof.
  unfold array_get. rewrite length_app. simpl.
  destruct (_ <? 0) eqn:Hneg; [apply Z.ltb_lt in Hneg; lia|].
  replace (Z.to_nat _) with (length older + 0)%nat by lia.
  by rewrite lookup_app_r, Nat.add_0_r, Nat.sub_diag by lia.
Qed.

Ltac no_matches Hfail :=
  match goal with
  | H : getMatchesFromEmbeddings _ ?a ?b = Ok _ |- _ =>
      destruct (Hfail a b) as [? ?]; congruence
  end.

Ltac show_leak :=
  unfold leaked; run_handler;
  split; [reflexivity|]; split; [reflexivity|]; apply error_response_500.

(** C8. The codec is not released when an error is thrown between its
    acquisition and [encoding.free()]: the langchain variant given an empty
    history, and any variant whose index query fails, return their 500
    response with the codec still allocated and [free()] never called. *)
Theorem codec_not_freed_on_error (w : World) (req : ChatBody) (p : bool) (enc : Tiktoken) :
  (p = true \/ pinecone_init w = Ok tt) ->
  (encoding_for_model w (id (model req)) = Some enc -> messages req = [] ->
   leaked (NodeChain.handler w req (initial p)))
  /\ (encoding_for_model w (id (model req)) = Some enc ->
      (forall emb k, exists e, getMatchesFromEmbeddings w emb k = Throw e) ->
      leaked (NodeChain.handler w req (initial p))
      /\ leaked (NodeStream.handler w req (initial p)))
  /\ (tiktoken_lite w = Ok enc ->
      (forall emb k, exists e, getMatchesFromEmbeddings w emb k = Throw e) ->
      leaked (Edge.handler w req (initial p))).
Proof.
  intros Hinit. split; [|split].
  - intros Henc Hempty.
    assert (Hlast : array_get (messages req) (Z.of_nat (length (messages req)) - 1) = None)
      by (rewrite Hempty; reflexivity).
    run_handler. rewrite Henc, Hlast.
    destruct Hinit as [->|Hinit]; [|destruct p; [|rewrite Hinit]]; show_leak.
  - intros Henc Hfail. split; run_handler; rewrite Henc;
      (destruct Hinit as [->|Hinit]; [|destruct p; [|rewrite Hinit]]);
      run_handler; repeat step; try no_matches Hfail; show_leak.
  - intros Henc Hfail. run_handler; rewrite Henc;
      (destruct Hinit as [->|Hinit]; [|destruct p; [|rewrite Hinit]]);
      run_handler; repeat step; try no_matches Hfail; show_leak.
Qed.

Lemma codec_not_freed_on_error_witness :
  let w := Sample.world [Sample.doc "u1" "aaa"] ["ok"] in
  let empty := Sample.request "gpt-3.5-turbo" 4000 [] JsNull in
  let req := Sample.request "gpt-3.5-turbo" 4000 [Sample.user "hi"] JsNull in
  (leaked (NodeChain.handler w empty (initial false))
   /\ trace (final_state (NodeChain.handler w empty (initial false)))
      = [EvPineconeInit; EvEncodingForModel "gpt-3.5-turbo";
         EvConsoleError
           (TypeError "Cannot read properties of undefined (reading 'content')")])
  /\ leaked (NodeStream.handler (Sample.without_index w) req (initial false))
  /\ leaked (Edge.handler (Sample.without_index w) req (initial false)).
Proof.
  intros w empty req. split; [split; [|reflexivity]|split].
  - destruct (codec_not_freed_on_error w empty false Sample.byte_codec (or_intror eq_refl))
      as [Hempty _].
    apply Hempty; reflexivity.
  - destruct (codec_not_freed_on_error (Sample.without_index w) req false Sample.byte_codec
                (or_intror eq_refl)) as (_ & Hnode & _).
    apply Hnode; [reflexivity|]. intros emb k. eexists. reflexivity.
  - destruct (codec_not_freed_on_error (Sample.without_index w) req false Sample.byte_codec
                (or_intror eq_refl)) as (_ & _ & Hedge).
    apply Hedge; [reflexivity|]. intros emb k. eexists. reflexivity.
Defined.

(** * Conditional summarization (chat.ts 77-120) *)

(** C3. In the variant that tests the 14,000 threshold, the summarizer is
    not called when the documents hold at most 14,000 tokens and is called
    exactly once, with their concatenation and the last message, when they
    hold more; but its answer is dropped: in both cases the template and the
    chain receive the raw concatenation as [summaries]. *)
Theorem summary_is_discarded (w : World) (req : ChatBody) (p : bool) (enc : Tiktoken)
    (older : list Message) (last : Message) (emb : list number) (found : list Match) :
  (p = true \/ pinecone_init w = Ok tt) ->
  encoding_for_model w (id (model req)) = Some enc ->
  messages req = older ++ [last] ->
  embedQuery w (content last) = Ok emb ->
  getMatchesFromEmbeddings w emb 3 = Ok found ->
  let docs := fullDocuments_of found in
  let raw := {| summaries := join newline docs;
                question := prompt req;
                conversationHistory := content <$> messages req;
                urls := urls_of found |} in
  let tr := trace (final_state (NodeChain.handler w req (initial p))) in
  (NodeChain.documentTokens_of enc docs <= 14000 ->
   summarize_calls tr = [] /\ format_calls tr = [raw])
  /\ (NodeChain.documentTokens_of enc docs > 14000 ->
      summarize_calls tr = [(join newline docs, content last)]
      /\ forall summary,
           summarizeLongDocument w (join newline docs) (content last) = Ok summary ->
           format_calls tr = [raw]
           /\ Forall (fun c => chain_summaries c = join newline docs) (chain_calls tr)).
Proof.
  intros Hinit Henc Hmsgs Hemb Hfound docs raw tr.
  assert (Hlast : array_get (messages req) (Z.of_nat (length (messages req)) - 1) = Some last)
    by (rewrite Hmsgs; apply array_get_last).
  unfold tr, raw, docs. clear tr raw docs. split.
  - intros Hle. apply Z.leb_le in Hle. rewrite Z.leb_antisym, negb_true_iff, <- Z.gtb_ltb in Hle.
    run_handler. rewrite Henc, Hlast, Hemb, Hfound, Hle.
    destruct Hinit as [->|Hinit]; [|destruct p; [|rewrite Hinit]];
      run_handler; repeat step; split; reflexivity.
  - intros Hgt. apply Z.gt_lt, Z.gtb_lt in Hgt. split.
    + run_handler. rewrite Henc, Hlast, Hemb, Hfound, Hgt.
      destruct Hinit as [->|Hinit]; [|destruct p; [|rewrite Hinit]];
        run_handler; repeat step; reflexivity.
    + intros summary Hsummary.
      run_handler. rewrite Henc, Hlast, Hemb, Hfound, Hgt.
      destruct Hinit as [->|Hinit]; [|destruct p; [|rewrite Hinit]];
        run_handler; rewrite Hsummary; run_handler; repeat step;
        (split; [reflexivity | each_call; reflexivity]).
Qed.

Lemma summary_is_discarded_witness :
  let long := Sample.world [Sample.doc "u1" Sample.long_text] ["ok"] in
  let short := Sample.world [Sample.doc "u1" "aaa"; Sample.doc "u2" "bb"] ["ok"] in
  let req := Sample.request "gpt-3.5-turbo" 16000 [Sample.user "hi"] JsNull in
  let tr := fun w => trace (final_state (NodeChain.handler w req (initial false))) in
  (summarizeLongDocument long Sample.long_text "hi" = Ok "SUMMARY"
   /\ summarize_calls (tr long) = [(Sample.long_text, "hi")]
   /\ summaries <$> format_calls (tr long) = [Sample.long_text])
  /\ (summarize_calls (tr short) = []
      /\ summaries <$> format_calls (tr short) = [join newline ["aaa"; "bb"]]).
Proof.
  intros long short req tr. split.
  - split; [reflexivity|].
    destruct (summary_is_discarded long req false Sample.byte_codec [] (Sample.user "hi")
                [Sample.one] [Sample.doc "u1" Sample.long_text]
                (or_intror eq_refl) eq_refl eq_refl eq_refl eq_refl) as [_ Hlong].
    destruct Hlong as [Hcalls Hformat]; [vm_compute; reflexivity|].
    destruct (Hformat "SUMMARY" eq_refl) as [Hraw _].
    unfold tr. rewrite Hcalls, Hraw. split; reflexivity.
  - destruct (summary_is_discarded short req false Sample.byte_codec [] (Sample.user "hi")
                [Sample.one] [Sample.doc "u1" "aaa"; Sample.doc "u2" "bb"]
                (or_intror eq_refl) eq_refl eq_refl eq_refl eq_refl) as [Hshort _].
    destruct Hshort as [Hcalls Hraw]; [vm_compute; discriminate|].
    unfold tr. rewrite Hcalls, Hraw. split; reflexivity.
Defined.

(** * Further properties of the selection loop *)

(** X13. The turns admitted are the longest suffix of the history that fits:
    a non-empty suffix of the history fits next to the prompt and the
    reserve exactly when it is no longer than the selection; in particular
    a history that fits as a whole is admitted as a whole. *)
Theorem selection_is_longest_fitting_suffix (encoding : Tiktoken) (m : OpenAIModel)
    (promptToSend : string) (messages : list Message) :
  exists k : nat,
    (k <= length messages)%nat
    /\ budget_select encoding m promptToSend messages
       = Ok (token_count encoding promptToSend + turn_tokens encoding (drop k messages),
             drop k messages)
    /\ (forall j : nat, (j < length messages)%nat ->
          ((k <= j)%nat <->
           token_count encoding promptToSend + turn_tokens encoding (drop j messages) + 1000
           <= tokenLimit m))
    /\ (token_count encoding promptToSend + turn_tokens encoding messages + 1000
        <= tokenLimit m -> k = 0%nat).
Proof.
  destruct (budget_select_cut encoding m promptToSend messages)
    as (k & Hk & Hrun & Hfit & Hstop).
  exists k. split; [done|]. split; [done|].
  assert (Hiff : forall j : nat, (j < length messages)%nat ->
            ((k <= j)%nat <->
             token_count encoding promptToSend + turn_tokens encoding (drop j messages) + 1000
             <= tokenLimit m)).
  { intros j Hj. split.
    - intros Hkj. pose proof (turn_tokens_drop_le encoding messages k j Hkj).
      specialize (Hfit ltac:(lia)). lia.
    - intros Hjfit. destruct (decide (k <= j)%nat) as [|Hlt]; [done|].
      specialize (Hstop ltac:(lia)).
      pose proof (turn_tokens_drop_le encoding messages j (k - 1) ltac:(lia)). lia. }
  split; [exact Hiff|].
  intros Hall. destruct messages as [|turn rest]; [simpl in Hk; lia|].
  assert (Hzero : (k <= 0)%nat) by (apply (Hiff 0%nat); [simpl; lia | exact Hall]).
  lia.
Qed.

Lemma selection_is_longest_fitting_suffix_witness :
  budget_select Sample.byte_codec {| id := "gpt-3.5-turbo"; tokenLimit := 1030 |} "hello"
    [Sample.user "hi"; Sample.assistant "a long answer"; Sample.user "ok"]
  = Ok (22, [Sample.user "hi"; Sample.assistant "a long answer"; Sample.user "ok"]).
Proof.
  destruct (selection_is_longest_fitting_suffix Sample.byte_codec
              {| id := "gpt-3.5-turbo"; tokenLimit := 1030 |} "hello"
              [Sample.user "hi"; Sample.assistant "a long answer"; Sample.user "ok"])
    as (k & _ & Hrun & _ & Hall).
  rewrite Hrun, (Hall ltac:(vm_compute; discriminate)). reflexivity.
Defined.

(** X14. Raising the token limit never loses a turn: the selection under a
    limit is a suffix of the selection under any larger limit. *)
Theorem selection_grows_with_limit (encoding : Tiktoken) (m m' : OpenAIModel)
    (promptToSend : string) (messages : list Message) :
  tokenLimit m <= tokenLimit m' ->
  exists (k k' : nat),
    (k' <= k <= length messages)%nat
    /\ budget_select encoding m promptToSend messages
       = Ok (token_count encoding promptToSend + turn_tokens encoding (drop k messages),
             drop k messages)
    /\ budget_select encoding m' promptToSend messages
       = Ok (token_count encoding promptToSend + turn_tokens encoding (drop k' messages),
             drop k' messages)
    /\ drop k messages = drop (k - k') (drop k' messages).
Proof.
  intros Hlimit.
  destruct (budget_select_cut encoding m promptToSend messages)
    as (k & Hk & Hrun & Hfit & _).
  destruct (budget_select_cut encoding m' promptToSend messages)
    as (k' & Hk' & Hrun' & _ & Hstop').
  exists k, k'.
  assert (Hle : (k' <= k)%nat).
  { destruct (decide (k' <= k)%nat) as [|Hlt]; [done|].
    specialize (Hfit ltac:(lia)). specialize (Hstop' ltac:(lia)).
    pose proof (turn_tokens_drop_le encoding messages k (k' - 1) ltac:(lia)). lia. }
  split; [lia|]. split; [done|]. split; [done|].
  rewrite drop_drop. f_equal. lia.
Qed.

Lemma selection_grows_with_limit_witness :
  let history := [Sample.user "hi"; Sample.assistant "a long answer"; Sample.user "ok"] in
  let low := {| id := "gpt-3.5-turbo"; tokenLimit := 1010 |} in
  let high := {| id := "gpt-3.5-turbo"; tokenLimit := 1020 |} in
  (budget_select Sample.byte_codec low "hello" history = Ok (7, [Sample.user "ok"])
   /\ budget_select Sample.byte_codec high "hello" history
      = Ok (20, [Sample.assistant "a long answer"; Sample.user "ok"]))
  /\ exists k k' : nat,
       (k' <= k <= 3)%nat
       /\ [Sample.user "ok"] = drop k history
       /\ [Sample.assistant "a long answer"; Sample.user "ok"] = drop k' history.
Proof.
  intros history low high. split; [split; reflexivity|].
  destruct (selection_grows_with_limit Sample.byte_codec low high "hello" history
              ltac:(simpl; lia)) as (k & k' & Hk & Hrun & Hrun' & _).
  exists k, k'. split; [exact Hk|].
  change (budget_select Sample.byte_codec low "hello" history)
    with (@Ok Failure (Z * list Message) (7, [Sample.user "ok"])) in Hrun.
  change (budget_select Sample.byte_codec high "hello" history)
    with (@Ok Failure (Z * list Message) (20, [Sample.assistant "a long answer"; Sample.user "ok"]))
    in Hrun'.
  injection Hrun as _ Hsel. injection Hrun' as _ Hsel'. split; assumption.
Defined.

(** * Further properties of the deduplication *)

Lemma first_by_sublist {A} (key : A -> string) (l : list A) :
  first_by key l `sublist_of` l.
Proof.
  induction l as [|x l IH]; [done|]. cbn [first_by].
  apply sublist_skip. etransitivity; [apply sublist_filter|exact IH].
Qed.

Lemma text_tokens_nonneg (encoding : Tiktoken) (texts : list string) :
  0 <= text_tokens encoding texts.
Proof.
  induction texts as [|t texts IH]; simpl; [lia|].
  pose proof (token_count_nonneg encoding t). lia.
Qed.

Lemma text_tokens_sublist (encoding : Tiktoken) (l l' : list string) :
  l `sublist_of` l' -> text_tokens encoding l <= text_tokens encoding l'.
Proof.
  induction 1 as [|x l l' _ IH|x l l' _ IH]; simpl; [lia|lia|].
  pose proof (token_count_nonneg encoding x). lia.
Qed.

Lemma documentTokens_of_from (encoding : Tiktoken) (docs : list string) (start : Z) :
  fold_left (fun documentTokens doc => documentTokens + token_count encoding doc) docs start
  = start + text_tokens encoding docs.
Proof.
  revert start. induction docs as [|d docs IH]; intros start; simpl; [lia|].
  rewrite IH. lia.
Qed.

(** X9. [documentTokens] counts each source once: it is the number of tokens
    of the first-seen text of each distinct url, so it is never negative,
    is 0 without matches, and is at most the tokens of all the matches'
    texts together; the count of a concatenation of document lists is the
    sum of their counts. *)
Theorem documentTokens_counts_each_source_once (encoding : Tiktoken)
    (matches : list Match) (docs docs' : list string) :
  let txt := fun m : Match => text (metadata m) in
  NodeChain.documentTokens_of encoding (fullDocuments_of matches)
  = text_tokens encoding (txt <$> first_seen matches)
  /\ 0 <= NodeChain.documentTokens_of encoding (fullDocuments_of matches)
     <= text_tokens encoding (txt <$> matches)
  /\ NodeChain.documentTokens_of encoding (fullDocuments_of []) = 0
  /\ NodeChain.documentTokens_of encoding (docs ++ docs')
     = NodeChain.documentTokens_of encoding docs + NodeChain.documentTokens_of encoding docs'.
Proof.
  intros txt. unfold NodeChain.documentTokens_of. rewrite !documentTokens_of_from.
  rewrite fullDocuments_of_first. fold txt. split; [lia|]. split; [|split; [done|]].
  - split; [pose proof (text_tokens_nonneg encoding (txt <$> first_seen matches)); lia|].
    rewrite Z.add_0_l. apply text_tokens_sublist, fmap_sublist, first_by_sublist.
  - clear. induction docs as [|d docs IH]; simpl; lia.
Qed.

Example documentTokens_of_repeated_source :
  NodeChain.documentTokens_of Sample.byte_codec
    (fullDocuments_of [Sample.doc "u1" "aaa"; Sample.doc "u2" "bb"; Sample.doc "u1" "cccc"])
  = 5.
Proof. reflexivity. Qed.

(** X12. The best match stays first: for a non-empty list of matches the
    first source identifier and the first document are the url and the text
    of the first match; both outputs are subsequences of the urls and of
    the texts of the matches (nothing is reordered or invented), so they are
    no longer than the input, and they are empty only for an empty input. *)
Theorem dedup_keeps_first_match_first (matches : list Match) :
  let key := fun m : Match => url (metadata m) in
  let txt := fun m : Match => text (metadata m) in
  head (urls_of matches) = key <$> head matches
  /\ head (fullDocuments_of matches) = txt <$> head matches
  /\ urls_of matches `sublist_of` (key <$> matches)
  /\ fullDocuments_of matches `sublist_of` (txt <$> matches)
  /\ (length (urls_of matches) <= length matches)%nat
  /\ (urls_of matches = [] <-> matches = [])
  /\ (fullDocuments_of matches = [] <-> matches = []).
Proof.
  intros key txt. rewrite urls_of_first, fullDocuments_of_first. fold key txt.
  pose proof (first_by_sublist key matches) as Hsub. fold (first_seen matches) in Hsub.
  split; [by destruct matches|]. split; [by destruct matches|].
  split; [by apply fmap_sublist|]. split; [by apply fmap_sublist|].
  split; [rewrite length_fmap; by apply sublist_length|].
  split; (split; [|by intros ->]); by destruct matches.
Qed.

(** X11. [chunkedDocs] holds every chunk text of the matches exactly once,
    in the order of first occurrence (a subsequence of the matches' chunks),
    and is empty for no matches. *)
Theorem chunkedDocs_distinct (matches : list Match) :
  let chunk_of := fun m : Match => chunk (metadata m) in
  chunkedDocs_of matches = first_by (fun s => s) (chunk_of <$> matches)
  /\ NoDup (chunkedDocs_of matches)
  /\ (forall c, c ∈ chunkedDocs_of matches <-> c ∈ chunk_of <$> matches)
  /\ chunkedDocs_of matches `sublist_of` (chunk_of <$> matches)
  /\ head (chunkedDocs_of matches) = chunk_of <$> head matches
  /\ chunkedDocs_of [] = [].
Proof.
  intros chunk_of.
  assert (Heq : chunkedDocs_of matches = first_by (fun s => s) (chunk_of <$> matches))
    by apply JsSet_of_array_first.
  split; [exact Heq|]. rewrite Heq.
  split; [|split; [|split; [|split; [|done]]]].
  - rewrite <- (list_fmap_id (first_by _ _)). apply (first_by_NoDup (fun s => s)).
  - intros c. pose proof (first_by_keys (fun s : string => s) (chunk_of <$> matches) c) as H.
    by rewrite !list_fmap_id in H.
  - apply first_by_sublist.
  - by destruct matches.
Qed.

Example chunkedDocs_of_repeated_source :
  chunkedDocs_of [Sample.doc "u1" "aaa"; Sample.doc "u2" "bb"; Sample.doc "u1" "aaa"]
  = ["aaa"; "bb"].
Proof. reflexivity. Qed.

(** * Further properties of the handlers *)

(** X1. [pinecone.init] is called exactly when the module variable is null
    on entry, and the variable is set on return whatever happened; so a
    failed initialisation is not retried: the first request returns its
    error response after that single call, and the next request goes on
    with the client as it is, without calling [pinecone.init] again. *)
Theorem failed_pinecone_init_is_not_retried (w : World) (req req' : ChatBody) (p : bool) :
  let inits := fun run : Result Returned * HState =>
    pinecone (final_state run) = true
    /\ pinecone_inits (trace (final_state run)) = (if p then 0 else 1)%nat in
  (inits (NodeChain.handler w req (initial p))
   /\ inits (Edge.handler w req (initial p))
   /\ inits (NodeStream.handler w req (initial p)))
  /\ (forall e, pinecone_init w = Throw e ->
      let failed := {| pinecone := true; live_codecs := 0;
                       trace := [EvPineconeInit; EvConsoleError e]; res := [] |} in
      (NodeChain.handler w req (initial false) = (Ok (error_response e), failed)
       /\ pinecone_inits (trace (final_state (NodeChain.handler w req' failed))) = 1%nat)
      /\ (Edge.handler w req (initial false) = (Ok (error_response e), failed)
          /\ pinecone_inits (trace (final_state (Edge.handler w req' failed))) = 1%nat)
      /\ (NodeStream.handler w req (initial false) = (Ok (error_response e), failed)
          /\ pinecone_inits (trace (final_state (NodeStream.handler w req' failed))) = 1%nat)).
Proof.
  intros inits. split.
  - unfold inits. repeat split; all_paths p; reflexivity.
  - intros e Hinit failed. unfold failed.
    repeat split; run_handler; rewrite ?Hinit; run_handler; repeat step; reflexivity.
Qed.

Lemma failed_pinecone_init_is_not_retried_witness :
  let w := Sample.without_pinecone (Sample.world [Sample.doc "u1" "aaa"] ["ok"]) in
  let req := Sample.request "gpt-3.5-turbo" 4000 [Sample.user "hi"] JsNull in
  let first := NodeStream.handler w req (initial false) in
  outcome first = Ok (RetErrorResponse 500 None)
  /\ trace (final_state (NodeStream.handler w req (final_state first)))
     = [EvPineconeInit; EvConsoleError (OtherError "no route to pinecone");
        EvEncodingForModel "gpt-3.5-turbo"; EvInquiryCall "q" ["hi"]; EvEmbedQuery "q";
        EvGetMatches [Sample.one] 3; EvSummarize "aaa" "q";
        EvFormat {| summaries := "SUMMARY"; question := "q";
                    conversationHistory := ["hi"]; urls := ["u1"] |};
        EvEncodingFree;
        EvOpenAIStream {| id := "gpt-3.5-turbo"; tokenLimit := 4000 |}
          (join newline ["SUMMARY"; "q"; "hi"; "u1"]) Sample.one "sk-env"
          [Sample.user "hi"]].
Proof.
  intros w req first.
  destruct (failed_pinecone_init_is_not_retried w req req false) as [_ Hfailed].
  destruct (Hfailed (OtherError "no route to pinecone") eq_refl) as (_ & _ & Hfirst & _).
  unfold first. rewrite Hfirst. split; reflexivity.
Defined.

Ltac settled := first [reflexivity | eassumption].

Ltac caught_or_not :=
  first [ left; repeat split; reflexivity
        | left; eexists; repeat split; reflexivity
        | right; left; eexists; repeat split; settled
        | right; right; do 2 eexists; repeat split; settled ].

(** X2. How a run ends. The langchain variant never throws to its caller:
    its run either completes (and then the [catch] block logged nothing) or
    returns the 500 response built from the one error it caught and logged,
    which is never an [OpenAIError]. A run of one of the two other variants
    either completes, or returns the 500 response built from the one error
    it caught and logged, or throws: the [catch] block logged the
    [OpenAIError] that the one call of [OpenAIStream] threw, and the
    [Response] constructor refused its message as a status text; that
    [TypeError] is the only thing a handler ever throws, and it is thrown
    whenever [OpenAIStream] throws such an error. In the relaying
    variant a run that completes may also have logged one error, the one of
    a stream that broke before its first chunk, and has then answered with
    status 500 on [res]; when a run of these two variants ends in the
    [catch] block, [res] has not been touched. *)
Theorem errors_are_caught_and_logged (w : World) (req : ChatBody) (p : bool) :
  (let run := NodeChain.handler w req (initial p) in
   (outcome run = Ok RetUndefined /\ console_errors (trace (final_state run)) = [])
   \/ exists failure : Failure,
        outcome run = Ok (error_response failure)
        /\ console_errors (trace (final_state run)) = [Foreign failure])
  /\ (let run := Edge.handler w req (initial p) in
      (exists body, outcome run = Ok (RetStreamResponse body)
                    /\ console_errors (trace (final_state run)) = []
                    /\ res (final_state run) = [])
      \/ (exists e, outcome run = Ok (error_response e)
                    /\ console_errors (trace (final_state run)) = [e]
                    /\ res (final_state run) = []
                    /\ response_built w e = true)
      \/ exists message c,
           console_errors (trace (final_state run)) = [OpenAIError message]
           /\ stream_calls (trace (final_state run)) = [c]
           /\ outcome run = Throw (Foreign (TypeError "Invalid statusText"))
           /\ res (final_state run) = []
           /\ OpenAIStream w (model req) c.1.1 c.1.2 (key req) c.2
              = Throw (OpenAIError message)
           /\ statusText_accepted w message = false)
  /\ (let run := NodeStream.handler w req (initial p) in
      (outcome run = Ok RetUndefined /\ console_errors (trace (final_state run)) = [])
      \/ (exists e, outcome run = Ok RetUndefined
                    /\ console_errors (trace (final_state run)) = [e]
                    /\ res (final_state run)
                       = streaming_headers
                         ++ [ResStatus 500;
                             ResEndWith "An error occurred while streaming data."])
      \/ (exists e, outcome run = Ok (error_response e)
                    /\ console_errors (trace (final_state run)) = [e]
                    /\ res (final_state run) = []
                    /\ response_built w e = true)
      \/ exists message c,
           console_errors (trace (final_state run)) = [OpenAIError message]
           /\ stream_calls (trace (final_state run)) = [c]
           /\ outcome run = Throw (Foreign (TypeError "Invalid statusText"))
           /\ res (final_state run) = []
           /\ OpenAIStream w (model req) c.1.1 c.1.2 (OPENAI_API_KEY w) c.2
              = Throw (OpenAIError message)
           /\ statusText_accepted w message = false)
  /\ (forall c message,
        statusText_accepted w message = false ->
        (c ∈ stream_calls (trace (final_state (Edge.handler w req (initial p)))) ->
         OpenAIStream w (model req) c.1.1 c.1.2 (key req) c.2 = Throw (OpenAIError message) ->
         outcome (Edge.handler w req (initial p))
         = Throw (Foreign (TypeError "Invalid statusText")))
        /\ (c ∈ stream_calls (trace (final_state (NodeStream.handler w req (initial p)))) ->
            OpenAIStream w (model req) c.1.1 c.1.2 (OPENAI_API_KEY w) c.2
            = Throw (OpenAIError message) ->
            outcome (NodeStream.handler w req (initial p))
            = Throw (Foreign (TypeError "Invalid statusText")))).
Proof.
  split; [|split; [|split]].
  - all_paths p; first [ left; repeat split; reflexivity
                       | right; eexists; repeat split; reflexivity ].
  - all_paths p; caught_or_not.
  - all_paths p;
      first [ left; repeat split; reflexivity
            | right; left; eexists; repeat split; reflexivity
            | right; right; left; eexists; repeat split; settled
            | right; right; right; do 2 eexists; repeat split; settled ].
  - intros c message Hrefused. split; all_paths p; intros Hin Hthrow;
      first [ by apply elem_of_nil in Hin
            | apply list_elem_of_singleton in Hin; subst c; cbn [fst snd] in Hthrow;
              congruence ].
Qed.

(** An error message with a line break: both variants log the error and
    throw, the caller gets no response from them. *)
Lemma errors_are_caught_and_logged_witness :
  let message := String (ascii_of_nat 10) "quota" in
  let w := Sample.with_openai_error message
             (Sample.world [Sample.doc "u1" "aaa"] ["ok"]) in
  let req := Sample.request "gpt-3.5-turbo" 4000 [Sample.user "hi"] JsNull in
  let c := (join newline ["SUMMARY"; "q"; "hi"; "u1"], Sample.one, [Sample.user "hi"]) in
  statusText_accepted w message = false
  /\ stream_calls (trace (final_state (Edge.handler w req (initial false)))) = [c]
  /\ outcome (Edge.handler w req (initial false))
     = Throw (Foreign (TypeError "Invalid statusText"))
  /\ outcome (NodeStream.handler w req (initial false))
     = Throw (Foreign (TypeError "Invalid statusText")).
Proof.
  intros message w req c.
  assert (Hrefused : statusText_accepted w message = false) by reflexivity.
  assert (Hedge_calls : stream_calls (trace (final_state (Edge.handler w req (initial false))))
                        = [c]) by (vm_compute; reflexivity).
  assert (Hnode_calls : stream_calls
                          (trace (final_state (NodeStream.handler w req (initial false))))
                        = [c]) by (vm_compute; reflexivity).
  destruct (errors_are_caught_and_logged w req false) as (_ & _ & _ & Hthrown).
  destruct (Hthrown c message Hrefused) as [Hedge Hnode].
  split; [exact Hrefused|]. split; [exact Hedge_calls|]. split.
  - apply Hedge; [rewrite Hedge_calls; apply list_elem_of_here | reflexivity].
  - apply Hnode; [rewrite Hnode_calls; apply list_elem_of_here | reflexivity].
Defined.

(** The same error with a message that is a reason phrase: the response is
    returned, with the message as its status text. *)
Example valid_status_text_is_returned :
  let w := Sample.with_openai_error "quota" (Sample.world [Sample.doc "u1" "aaa"] ["ok"]) in
  let req := Sample.request "gpt-3.5-turbo" 4000 [Sample.user "hi"] JsNull in
  outcome (Edge.handler w req (initial false)) = Ok (RetErrorResponse 500 (Some "quota"))
  /\ console_errors (trace (final_state (Edge.handler w req (initial false))))
     = [OpenAIError "quota"].
Proof. split; vm_compute; reflexivity. Qed.

(** X3. How a broken stream is relayed. The relay itself never fails and
    touches neither the client variable nor the codecs. A stream that breaks
    before its first chunk is logged and answered with status 500 and a
    fixed body. A stream that breaks after some chunks has these chunks
    written, and then nothing: the rejection reaches no handler, the error
    is not logged with [console.error], and the response is never ended. *)
Theorem relay_failure_paths (cs : list string) (err : Error) (st : HState) :
  let run := NodeStream.relay {| chunks := cs; ending := StreamErrored err |} st in
  outcome run = Ok tt
  /\ pinecone (final_state run) = pinecone st
  /\ live_codecs (final_state run) = live_codecs st
  /\ (cs = [] ->
      trace (final_state run) = trace st ++ [EvConsoleError err]
      /\ res (final_state run)
         = res st ++ [ResStatus 500; ResEndWith "An error occurred while streaming data."])
  /\ (cs <> [] ->
      trace (final_state run) = trace st ++ [EvUnhandledRejection err]
      /\ res (final_state run) = res st ++ (ResWrite <$> cs)
      /\ ends (res (final_state run)) = ends (res st)
      /\ forall body, ResEndWith body ∈ res (final_state run) -> ResEndWith body ∈ res st).
Proof.
  intros run. unfold run. clear run. rewrite relay_run.
  destruct cs as [|c cs].
  - unfold final_state, outcome, extend, relay_effect. simpl.
    repeat split; try done. all: intros Hne; by destruct Hne.
  - assert (Heffect : relay_effect {| chunks := c :: cs; ending := StreamErrored err |}
                      = ([EvUnhandledRejection err], ResWrite <$> c :: cs)) by reflexivity.
    rewrite Heffect. unfold final_state, outcome, extend.
    cbn [fst snd pinecone live_codecs trace res].
    split; [done|]. split; [done|]. split; [done|]. split; [done|].
    intros _. split; [done|]. split; [done|]. split.
    + rewrite ends_app, ends_writes. lia.
    + intros body. rewrite elem_of_app. intros [Hin|Hin]; [done|].
      apply list_elem_of_fmap in Hin as (chunk & Heq & _). discriminate Heq.
Qed.

Lemma relay_failure_paths_witness :
  res (final_state (NodeStream.relay
         {| chunks := []; ending := StreamErrored (OtherError "reset") |} (initial true)))
  = [ResStatus 500; ResEndWith "An error occurred while streaming data."]
  /\ trace (final_state (NodeStream.relay
         {| chunks := ["The"; " answer"]; ending := StreamErrored (OtherError "reset") |}
         (initial true)))
     = [EvUnhandledRejection (OtherError "reset")].
Proof.
  split.
  - destruct (relay_failure_paths [] (OtherError "reset") (initial true))
      as (_ & _ & _ & Hfirst & _).
    destruct (Hfirst eq_refl) as [_ ->]. reflexivity.
  - destruct (relay_failure_paths ["The"; " answer"] (OtherError "reset") (initial true))
      as (_ & _ & _ & _ & Hlater).
    destruct (Hlater ltac:(discriminate)) as [-> _]. reflexivity.
Defined.




(** X5. No call is repeated within a request: in every run of every variant
    the inquiry chain, the embedder, the index, the summarizer, the prompt
    template and the generator are each called at most once, and a later
    collaborator is called only if the one before it was. *)
Theorem collaborators_called_at_most_once (w : World) (req : ChatBody) (p : bool) :
  let once := fun (generations : list Event -> nat) (tr : list Event) =>
    (generations tr <= length (format_calls tr))%nat
    /\ (length (format_calls tr) <= length (index_queries tr))%nat
    /\ (length (summarize_calls tr) <= length (index_queries tr))%nat
    /\ (length (index_queries tr) <= length (embed_calls tr))%nat
    /\ (length (embed_calls tr) <= 1)%nat
    /\ (length (inquiry_calls tr) <= 1)%nat in
  once (fun tr => length (chain_calls tr))
    (trace (final_state (NodeChain.handler w req (initial p))))
  /\ once (fun tr => length (stream_calls tr))
       (trace (final_state (Edge.handler w req (initial p))))
  /\ once (fun tr => length (stream_calls tr))
       (trace (final_state (NodeStream.handler w req (initial p)))).
Proof.
  intros once. unfold once. split; [|split]; all_paths p; repeat split; simpl; lia.
Qed.

Lemma freed_first_sound (tr : list Event) : forall freed,
  freed_first freed tr = true ->
  forall pre gen post, tr = pre ++ gen :: post -> is_generation gen = true ->
  freed = true \/ EvEncodingFree ∈ pre.
Proof.
  induction tr as [|e tr IH]; intros freed Hscan pre gen post Htr Hgen.
  - by destruct pre.
  - destruct pre as [|e' pre]; simpl in Htr; injection Htr as -> ->.
    + left. destruct gen; try discriminate Hgen; simpl in Hscan;
        apply andb_prop in Hscan as [Hfreed _]; exact Hfreed.
    + assert (Hrest : e' = EvEncodingFree
                      \/ freed_first freed (pre ++ gen :: post) = true).
      { destruct e';
          first [ by left
                | right; simpl in Hscan; exact Hscan
                | right; simpl in Hscan; apply andb_prop in Hscan as [_ Hscan];
                  exact Hscan ]. }
      destruct Hrest as [->|Hrest]; [right; apply list_elem_of_here|].
      destruct (IH freed Hrest pre gen post eq_refl Hgen) as [Hfreed|Hpre];
        [by left | right; by apply list_elem_of_further].
Qed.

Lemma encoding_frees_app (tr tr' : list Event) :
  encoding_frees (tr ++ tr') = (encoding_frees tr + encoding_frees tr')%nat.
Proof. unfold encoding_frees. by rewrite List.filter_app, length_app. Qed.

Lemma encoding_frees_elem (tr : list Event) :
  EvEncodingFree ∈ tr -> (1 <= encoding_frees tr)%nat.
Proof.
  induction tr as [|e tr IH]; intros Hin.
  - by apply elem_of_nil in Hin.
  - apply elem_of_cons in Hin as [<-|Hin].
    + unfold encoding_frees. simpl. lia.
    + specialize (IH Hin). unfold encoding_frees in *. destruct e; simpl; lia.
Qed.

(** A trace that passes the scan and holds at most one [free()]: whatever
    generation event is picked in it, the [free()] is before it, and there
    is none after it. *)
Lemma generation_after_free (tr : list Event) :
  freed_first false tr = true -> (encoding_frees tr <= 1)%nat ->
  forall pre gen post, tr = pre ++ gen :: post -> is_generation gen = true ->
  EvEncodingFree ∈ pre /\ EvEncodingFree ∉ post.
Proof.
  intros Hscan Hfrees pre gen post -> Hgen.
  destruct (freed_first_sound _ _ Hscan pre gen post eq_refl Hgen) as [?|Hpre]; [done|].
  split; [exact Hpre|]. intros Hpost.
  apply encoding_frees_elem in Hpre, Hpost.
  rewrite encoding_frees_app in Hfrees.
  change (gen :: post) with ([gen] ++ post) in Hfrees.
  rewrite encoding_frees_app in Hfrees. lia.
Qed.

(** X6. The codec is never given back twice, at most one codec is alive when
    the handler returns, and generation is started only after the codec has
    been given back: a run that reached the generator called [free()]
    exactly once and leaves no codec alive, and wherever [OpenAIStream] or
    [chain.call] stands in the chronological trace of the run, the [free()]
    stands before it and none stands after it. *)
Theorem codec_freed_once_before_generation (w : World) (req : ChatBody) (p : bool) :
  let tidy := fun (generations : list Event -> nat) (st : HState) =>
    (encoding_frees (trace st) <= 1)%nat
    /\ (live_codecs st + encoding_frees (trace st) <= 1)%nat
    /\ ((0 < generations (trace st))%nat ->
        encoding_frees (trace st) = 1%nat /\ live_codecs st = 0%nat)
    /\ (forall pre gen post,
          trace st = pre ++ gen :: post -> is_generation gen = true ->
          EvEncodingFree ∈ pre /\ EvEncodingFree ∉ post) in
  tidy (fun tr => length (chain_calls tr)) (final_state (NodeChain.handler w req (initial p)))
  /\ tidy (fun tr => length (stream_calls tr)) (final_state (Edge.handler w req (initial p)))
  /\ tidy (fun tr => length (stream_calls tr))
       (final_state (NodeStream.handler w req (initial p))).
Proof.
  intros tidy. unfold tidy. split; [|split]; all_paths p;
    (split; [vm_compute; lia|]); (split; [vm_compute; lia|]);
    (split; [intros Hgen; first [ split; reflexivity | vm_compute in Hgen; lia ]|]);
    (apply generation_after_free; [reflexivity | vm_compute; lia]).
Qed.

(** A run that reaches [OpenAIStream]: the ninth and last event of its trace,
    after the [free()], which is the eighth. *)
Lemma codec_freed_once_before_generation_witness :
  let w := Sample.world [Sample.doc "u1" "aaa"] ["ok"] in
  let req := Sample.request "gpt-3.5-turbo" 4000 [Sample.user "hi"] JsNull in
  let st := final_state (NodeStream.handler w req (initial false)) in
  let pre := [EvPineconeInit; EvEncodingForModel "gpt-3.5-turbo"; EvInquiryCall "q" ["hi"];
              EvEmbedQuery "q"; EvGetMatches [Sample.one] 3; EvSummarize "aaa" "q";
              EvFormat {| summaries := "SUMMARY"; question := "q";
                          conversationHistory := ["hi"]; urls := ["u1"] |};
              EvEncodingFree] in
  let gen := EvOpenAIStream (model req) (join newline ["SUMMARY"; "q"; "hi"; "u1"])
               Sample.one "sk-env" [Sample.user "hi"] in
  trace st = pre ++ [gen]
  /\ (encoding_frees (trace st) = 1%nat /\ live_codecs st = 0%nat)
  /\ (EvEncodingFree ∈ pre /\ EvEncodingFree ∉ []).
Proof.
  intros w req st pre gen.
  assert (Htrace : trace st = pre ++ [gen]) by (vm_compute; reflexivity).
  destruct (codec_freed_once_before_generation w req false)
    as (_ & _ & _ & _ & Hgen & Hbefore).
  split; [exact Htrace|]. split.
  - apply Hgen. vm_compute. constructor.
  - exact (Hbefore pre gen [] Htrace eq_refl).
Defined.

(** X7. What the langchain variant puts on the response: nothing before the
    chain is called, and then exactly the image of the callbacks fired
    during that one call (a write per token, an end per end signal); it
    sets no header and no status, even when the chain then fails and the
    handler returns its error response. *)
Theorem chain_response_is_callback_image (w : World) (req : ChatBody) (p : bool) :
  let st := final_state (NodeChain.handler w req (initial p)) in
  (chain_calls (trace st) = [] /\ res st = [])
  \/ exists args,
       chain_calls (trace st) = [args]
       /\ chain_options (trace st) = [NodeChain.chat_options]
       /\ res st = callback_op <$> fired (chain_call w NodeChain.chat_options args).
Proof.
  all_paths p;
    first [ left; split; reflexivity | right; eexists; repeat split; reflexivity ].
Qed.

(** What the two streaming variants hand to the inquiry chain and to the
    template on the path of [stream_run_reaches_generation]. *)
Lemma stream_run_collaborators (w : World) (req : ChatBody) (p : bool)
    (encoding : Tiktoken) (promptToSend : string) :
  (p = true \/ pinecone_init w = Ok tt) ->
  stream_pipeline w req promptToSend ->
  let asked := fun tr : list Event =>
    inquiry_calls tr = [(prompt req, content <$> messages req)]
    /\ exists a, format_calls tr = [a]
                 /\ conversationHistory a = content <$> messages req
                 /\ promptQA_format w a = Ok promptToSend in
  (encoding_for_model w (id (model req)) = Some encoding ->
   asked (trace (final_state (NodeStream.handler w req (initial p)))))
  /\ (tiktoken_lite w = Ok encoding ->
      asked (trace (final_state (Edge.handler w req (initial p))))).
Proof.
  intros Hinit (inquiry & emb & found & summary & Hinq & Hemb & Hfound & Hsum & Hfmt) asked.
  unfold asked. clear asked. pose proof Hfmt as Hrendered. as_map Hinq. as_map Hfmt.
  split; intros Henc; run_handler; rewrite Henc; with_pinecone Hinit p;
    rewrite Hinq; run_handler; rewrite Hemb; run_handler; rewrite Hfound; run_handler;
    rewrite Hsum; run_handler; rewrite Hfmt; run_handler; repeat step;
    (split; [reflexivity|]); eexists; (split; [reflexivity|]); (split; [reflexivity|]);
    exact Hrendered.
Qed.

(** X17. On an empty history the langchain variant stops at
    [messages[messages.length-1].content]: it returns an error response
    without having embedded, queried, summarized, rendered or generated
    anything, whatever the collaborators would have answered. The two other
    variants do not fail on an empty history by itself: whatever they pass
    to the inquiry chain, to the template and to the generator is the empty
    list, and when the collaborators answer, the run goes all the way: the
    inquiry chain and the template are called with the empty list, no turn
    is admitted, [OpenAIStream] is called with the rendered prompt and no
    message, and the stream it returns is what the run completes with. *)
Theorem empty_history (w : World) (req : ChatBody) (p : bool) :
  messages req = [] ->
  (let run := NodeChain.handler w req (initial p) in
   (exists statusText, outcome run = Ok (RetErrorResponse 500 statusText))
   /\ retrieval_calls (trace (final_state run)) = []
   /\ summarize_calls (trace (final_state run)) = []
   /\ format_calls (trace (final_state run)) = []
   /\ chain_calls (trace (final_state run)) = []
   /\ res (final_state run) = [])
  /\ (let quiet := fun tr : list Event =>
        Forall (fun c => c.2 = []) (inquiry_calls tr)
        /\ Forall (fun a => conversationHistory a = []) (format_calls tr)
        /\ Forall (fun c => c.2 = []) (stream_calls tr) in
      quiet (trace (final_state (Edge.handler w req (initial p))))
      /\ quiet (trace (final_state (NodeStream.handler w req (initial p)))))
  /\ ((p = true \/ pinecone_init w = Ok tt) ->
      forall encoding promptToSend,
        stream_pipeline w req promptToSend ->
        let temp := temperatureToUse w (temperature req) in
        let reached := fun tr : list Event =>
          inquiry_calls tr = [(prompt req, [])]
          /\ (exists a, format_calls tr = [a] /\ conversationHistory a = []
                        /\ promptQA_format w a = Ok promptToSend)
          /\ stream_calls tr = [(promptToSend, temp, [])] in
        (tiktoken_lite w = Ok encoding ->
         let run := Edge.handler w req (initial p) in
         reached (trace (final_state run))
         /\ forall stream,
              OpenAIStream w (model req) promptToSend temp (key req) [] = Ok stream ->
              outcome run = Ok (RetStreamResponse stream))
        /\ (encoding_for_model w (id (model req)) = Some encoding ->
            let run := NodeStream.handler w req (initial p) in
            reached (trace (final_state run))
            /\ forall stream,
                 OpenAIStream w (model req) promptToSend temp (OPENAI_API_KEY w) []
                 = Ok stream ->
                 outcome run = Ok RetUndefined /\ written (res (final_state run)) = chunks stream)).
Proof.
  intros Hempty. split; [|split].
  - assert (Hlast : array_get (messages req) (Z.of_nat (length (messages req)) - 1) = None)
      by (rewrite Hempty; reflexivity).
    run_handler. rewrite Hlast. destruct p; run_handler; repeat step;
      (split; [apply error_response_500|]); repeat split; reflexivity.
  - split; run_handler; rewrite Hempty; destruct p; run_handler; repeat step;
      try match goal with
          | H : budget_select _ _ _ [] = Ok _ |- _ =>
              unfold budget_select in H; simpl in H; injection H as _ <-
          end;
      repeat split; each_call; reflexivity.
  - intros Hinit encoding promptToSend Hpipe temp reached.
    assert (Hsel : budget_select encoding (model req) promptToSend (messages req)
                   = Ok (token_count encoding promptToSend, []))
      by (rewrite Hempty; reflexivity).
    destruct (stream_run_reaches_generation w req p encoding promptToSend _ _
                Hinit Hpipe Hsel) as [Hnode Hedge].
    destruct (stream_run_collaborators w req p encoding promptToSend Hinit Hpipe)
      as [Hnode' Hedge'].
    unfold reached. rewrite Hempty in Hnode', Hedge'.
    split; intros Henc.
    + destruct (Hedge Henc) as [Hcalls Hout]. destruct (Hedge' Henc) as [Hinq Hfmt].
      split; [split; [exact Hinq | split; [exact Hfmt | exact Hcalls]]|].
      intros stream Hstream. exact (Hout stream Hstream).
    + destruct (Hnode Henc) as [Hcalls Hout]. destruct (Hnode' Henc) as [Hinq Hfmt].
      split; [split; [exact Hinq | split; [exact Hfmt | exact Hcalls]]|].
      intros stream Hstream. destruct (Hout stream Hstream) as [Hdone Hres].
      split; [exact Hdone|]. by apply relayed_chunks.
Qed.

Lemma empty_history_witness :
  let w := Sample.world [Sample.doc "u1" "aaa"] ["ok"] in
  let req := Sample.request "gpt-3.5-turbo" 4000 [] JsNull in
  retrieval_calls (trace (final_state (NodeChain.handler w req (initial true)))) = []
  /\ stream_calls (trace (final_state (NodeStream.handler w req (initial true))))
     = [(join newline ["SUMMARY"; "q"; "u1"], Sample.one, [])]
  /\ outcome (NodeStream.handler w req (initial true)) = Ok RetUndefined
  /\ written (res (final_state (NodeStream.handler w req (initial true)))) = ["ok"]
  /\ outcome (Edge.handler w req (initial true))
     = Ok (RetStreamResponse {| chunks := ["ok"]; ending := StreamClosed |}).
Proof.
  intros w req.
  destruct (empty_history w req true eq_refl) as ((_ & Hnone & _) & _ & Hgoes).
  split; [exact Hnone|].
  assert (Hpipe : stream_pipeline w req (join newline ["SUMMARY"; "q"; "u1"])).
  { exists "q", [Sample.one], [Sample.doc "u1" "aaa"], "SUMMARY". repeat split. }
  destruct (Hgoes (or_introl eq_refl) Sample.byte_codec _ Hpipe) as [Hedge Hnode].
  destruct (Hedge eq_refl) as [_ Hout].
  destruct (Hnode eq_refl) as [(_ & _ & Hcalls) Hout'].
  destruct (Hout' _ eq_refl) as [Hdone Hwritten].
  split; [exact Hcalls|]. split; [exact Hdone|]. split; [exact Hwritten|].
  exact (Hout _ eq_refl).
Defined.

(** X8. The two variants that call [OpenAIStream] summarize without looking
    at any size: whenever the index answered, [summarizeLongDocument] is
    called exactly once, with the concatenation of the deduplicated
    documents and the inquiry; and the template then receives as
    [summaries] the summarizer's answer itself, next to the deduplicated
    urls of the same matches. *)
Theorem stream_variants_always_summarize (w : World) (req : ChatBody) (p : bool) :
  let summarized := fun tr : list Event =>
    (forall v found, (v, 3) ∈ index_queries tr ->
       getMatchesFromEmbeddings w v 3 = Ok found ->
       exists inquiry,
         inquiryChain_call w (prompt req) (content <$> messages req) = Ok inquiry
         /\ summarize_calls tr = [(join newline (fullDocuments_of found), inquiry)])
    /\ Forall (fun a => exists v found inquiry,
                 (v, 3) ∈ index_queries tr
                 /\ getMatchesFromEmbeddings w v 3 = Ok found
                 /\ summarizeLongDocument w (join newline (fullDocuments_of found)) inquiry
                    = Ok (summaries a)
                 /\ urls a = urls_of found)
         (format_calls tr) in
  summarized (trace (final_state (Edge.handler w req (initial p))))
  /\ summarized (trace (final_state (NodeStream.handler w req (initial p)))).
Proof.
  intros summarized. unfold summarized.
  split; all_paths p; (split;
    [ intros v found Hin Hfound; cbn in Hin;
      first [ by apply elem_of_nil in Hin
            | apply list_elem_of_singleton in Hin; injection Hin as ->;
              first [ congruence
                    | eexists; split; [eassumption|];
                      match goal with
                      | H : getMatchesFromEmbeddings _ _ _ = Ok _ |- _ =>
                          rewrite H in Hfound; injection Hfound as <-
                      end; reflexivity ] ]
    | each_call; do 3 eexists;
      (split; [apply list_elem_of_here|]); (split; [eassumption|]);
      (split; [eassumption | reflexivity]) ]).
Qed.

Lemma stream_variants_always_summarize_witness :
  let w := Sample.world [Sample.doc "u1" "aaa"; Sample.doc "u2" "bb"; Sample.doc "u1" "cc"]
             ["ok"] in
  let req := Sample.request "gpt-3.5-turbo" 4000 [Sample.user "hi"] JsNull in
  let tr := trace (final_state (NodeStream.handler w req (initial true))) in
  summarize_calls tr = [(join newline ["aaa"; "bb"], "q")]
  /\ summaries <$> format_calls tr = ["SUMMARY"].
Proof.
  intros w req tr. split; [|reflexivity].
  destruct (stream_variants_always_summarize w req true) as [_ [Hcalls _]].
  destruct (Hcalls [Sample.one]
              [Sample.doc "u1" "aaa"; Sample.doc "u2" "bb"; Sample.doc "u1" "cc"]
              ltac:(apply list_elem_of_here) eq_refl) as (inquiry & Hinquiry & Hsum).
  injection Hinquiry as <-. exact Hsum.
Defined.


Example edge_uses_request_key :
  stream_targets (trace (final_state
    (Edge.handler (Sample.world [Sample.doc "u1" "aaa"] ["ok"])
       (Sample.request "gpt-3.5-turbo" 4000 [Sample.user "hi"] JsNull) (initial true))))
  = [({| id := "gpt-3.5-turbo"; tokenLimit := 4000 |}, "sk-request")]
  /\ stream_targets (trace (final_state
       (NodeStream.handler (Sample.world [Sample.doc "u1" "aaa"] ["ok"])
          (Sample.request "gpt-3.5-turbo" 4000 [Sample.user "hi"] JsNull) (initial true))))
     = [({| id := "gpt-3.5-turbo"; tokenLimit := 4000 |}, "sk-env")].
Proof. split; reflexivity. Qed.

Lemma urls_of_retag (f : Match -> Match) (found : list Match) :
  (forall m, url (metadata (f m)) = url (metadata m)) ->
  urls_of (f <$> found) = urls_of found.
Proof.
  intros Hurl. unfold urls_of. f_equal. f_equal.
  change (List.map ?g ?l) with (g <$> l). rewrite <- list_fmap_compose.
  apply list_fmap_ext. intros _ m _. apply Hurl.
Qed.

Lemma fullDocuments_of_retag (f : Match -> Match) (found : list Match) :
  (forall m, url (metadata (f m)) = url (metadata m)) ->
  (forall m, text (metadata (f m)) = text (metadata m)) ->
  fullDocuments_of (f <$> found) = fullDocuments_of found.
Proof.
  intros Hurl Htext. unfold fullDocuments_of, document_map. do 2 f_equal.
  generalize JsMap.empty. induction found as [|m found IH]; intros acc; [done|].
  cbn [fmap list_fmap fold_left]. change (list_fmap _ _ f found) with (f <$> found).
  rewrite IH. f_equal. unfold collect. by rewrite Hurl, Htext.
Qed.

Ltac retag Hurl Htext :=
  unfold map_result;
  rewrite ?(urls_of_retag _ _ Hurl), ?(fullDocuments_of_retag _ _ Hurl Htext).

(** X10. Only the url and the text of a match matter: a run is the same,
    call for call and byte for byte, when the identifiers and the chunk
    texts of the matches returned by the index are replaced by anything
    else ([chunkedDocs] is computed and never read). *)
Theorem only_url_and_text_matter (w : World) (req : ChatBody) (p : bool)
    (f : Match -> Match) :
  (forall m, url (metadata (f m)) = url (metadata m)) ->
  (forall m, text (metadata (f m)) = text (metadata m)) ->
  NodeChain.handler (with_matches f w) req (initial p) = NodeChain.handler w req (initial p)
  /\ Edge.handler (with_matches f w) req (initial p) = Edge.handler w req (initial p)
  /\ NodeStream.handler (with_matches f w) req (initial p)
     = NodeStream.handler w req (initial p).
Proof.
  intros Hurl Htext.
  split; [|split]; run_handler; unfold with_matches;
    cbn [pinecone_init encoding_for_model tiktoken_lite inquiryChain_call embedQuery
         getMatchesFromEmbeddings summarizeLongDocument promptQA_format OpenAIStream
         chain_call];
    destruct p; run_handler;
    repeat first [ reflexivity | oracle; run_handler; retag Hurl Htext ].
Qed.

Lemma only_url_and_text_matter_witness :
  let w := Sample.world [Sample.doc "u1" "aaa"; Sample.doc "u1" "bb"] ["ok"] in
  let req := Sample.request "gpt-3.5-turbo" 4000 [Sample.user "hi"] JsNull in
  let f := fun m => {| matchId := "x";
                       metadata := {| url := url (metadata m); text := text (metadata m);
                                      chunk := "" |} |} in
  chunkedDocs_of (f <$> [Sample.doc "u1" "aaa"; Sample.doc "u1" "bb"]) = [""]
  /\ NodeStream.handler (with_matches f w) req (initial true)
     = NodeStream.handler w req (initial true).
Proof.
  intros w req f. split; [reflexivity|].
  apply (only_url_and_text_matter w req true f); reflexivity.
Defined.

Lemma closings_app (ops ops' : list ResOp) :
  closings (ops ++ ops') = (closings ops + closings ops')%nat.
Proof. unfold closings. by rewrite List.filter_app, length_app. Qed.

Lemma closings_writes (cs : list string) : closings (ResWrite <$> cs) = 0%nat.
Proof. induction cs as [|c cs IH]; [done|]. exact IH. Qed.

Lemma relayed_closings (stream : ReadableStream) (ops : list ResOp) :
  ops = streaming_headers ++ (relay_effect stream).2 ->
  match ending stream, chunks stream with
  | StreamClosed, cs =>
      ops = streaming_headers ++ (ResWrite <$> cs) ++ [ResEnd]
      /\ ends ops = 1%nat /\ closings ops = 1%nat
  | StreamErrored _, [] =>
      ops = streaming_headers
            ++ [ResStatus 500; ResEndWith "An error occurred while streaming data."]
      /\ ends ops = 0%nat /\ closings ops = 1%nat
  | StreamErrored _, cs =>
      ops = streaming_headers ++ (ResWrite <$> cs)
      /\ ends ops = 0%nat /\ closings ops = 0%nat
  end.
Proof.
  intros ->. destruct stream as [cs [|err]]; [|destruct cs as [|c cs]]; cbn [ending chunks].
  - change (relay_effect {| chunks := cs; ending := StreamClosed |}).2
      with ((ResWrite <$> cs) ++ [ResEnd]).
    split; [reflexivity|].
    by rewrite !ends_app, !closings_app, ends_writes, closings_writes.
  - repeat split.
  - change (relay_effect {| chunks := c :: cs; ending := StreamErrored err |}).2
      with (ResWrite <$> c :: cs).
    split; [reflexivity|].
    by rewrite !ends_app, !closings_app, ends_writes, closings_writes.
Qed.

(** X16. End to end, the relaying variant delivers the stream it was given.
    Either the handler stopped before streaming: [OpenAIStream] was not
    called, or its one call threw, and [res] is untouched. Or [OpenAIStream]
    returned a stream for this request and [res] holds the two streaming
    headers followed by the relay of that stream, so that the chunks written
    are exactly the chunks of that stream, in order. If the stream ended,
    [res.end()] follows the last chunk and the response is ended once. If it
    broke before its first chunk, nothing is written and the response is
    ended once, by [res.status(500).end('An error occurred while streaming
    data.')]. If it broke after some chunks, these chunks are all there is:
    the response is never ended, neither by [res.end()] nor by
    [res.end(body)]. *)
Theorem relayed_response_end_to_end (w : World) (req : ChatBody) (p : bool) :
  let st := final_state (NodeStream.handler w req (initial p)) in
  (res st = [] /\ stream_calls (trace st) = [])
  \/ (exists c e,
        res st = [] /\ stream_calls (trace st) = [c]
        /\ OpenAIStream w (model req) c.1.1 c.1.2 (OPENAI_API_KEY w) c.2 = Throw e)
  \/ exists promptToSend temp turns stream,
       stream_calls (trace st) = [(promptToSend, temp, turns)]
       /\ OpenAIStream w (model req) promptToSend temp (OPENAI_API_KEY w) turns = Ok stream
       /\ res st = streaming_headers ++ (relay_effect stream).2
       /\ written (res st) = chunks stream
       /\ match ending stream, chunks stream with
          | StreamClosed, cs =>
              res st = streaming_headers ++ (ResWrite <$> cs) ++ [ResEnd]
              /\ ends (res st) = 1%nat /\ closings (res st) = 1%nat
          | StreamErrored _, [] =>
              res st = streaming_headers
                       ++ [ResStatus 500;
                           ResEndWith "An error occurred while streaming data."]
              /\ ends (res st) = 0%nat /\ closings (res st) = 1%nat
          | StreamErrored _, cs =>
              res st = streaming_headers ++ (ResWrite <$> cs)
              /\ ends (res st) = 0%nat /\ closings (res st) = 0%nat
          end.
Proof.
  all_paths p;
    first [ left; split; reflexivity
          | right; left; do 2 eexists; (split; [reflexivity|]); (split; [reflexivity|]);
            eassumption
          | right; right; do 4 eexists; (split; [reflexivity|]); (split; [eassumption|]);
            (split; [reflexivity|]); (split; [apply relayed_chunks; reflexivity|]);
            apply relayed_closings; reflexivity ].
Qed.

(** A stream of four chunks that ends, one that breaks at once and one that
    breaks after two chunks. *)
Lemma relayed_response_end_to_end_witness :
  let req := Sample.request "gpt-3.5-turbo" 4000 [Sample.user "hi"] JsNull in
  let run := fun w => res (final_state (NodeStream.handler w req (initial false))) in
  let breaking := Sample.with_broken_stream in
  let w := Sample.world [Sample.doc "u1" "aaa"] ["The"; " answer"; " is"; " 4."] in
  (written (run w) = ["The"; " answer"; " is"; " 4."]
   /\ ends (run w) = 1%nat /\ closings (run w) = 1%nat)
  /\ run (breaking [] w)
     = streaming_headers
       ++ [ResStatus 500; ResEndWith "An error occurred while streaming data."]
  /\ (run (breaking ["The"; " answer"] w)
      = streaming_headers ++ [ResWrite "The"; ResWrite " answer"]
      /\ closings (run (breaking ["The"; " answer"] w)) = 0%nat).
Proof.
  intros req run breaking w.
  assert (Hended : run w = streaming_headers
                           ++ [ResWrite "The"; ResWrite " answer"; ResWrite " is";
                               ResWrite " 4."; ResEnd]) by (vm_compute; reflexivity).
  assert (Hatonce : run (breaking [] w)
                    = streaming_headers
                      ++ [ResStatus 500;
                          ResEndWith "An error occurred while streaming data."])
    by (vm_compute; reflexivity).
  assert (Hlater : run (breaking ["The"; " answer"] w)
                   = streaming_headers ++ [ResWrite "The"; ResWrite " answer"])
    by (vm_compute; reflexivity).
  split; [|split].
  - destruct (relayed_response_end_to_end w req false)
      as [[Hnone _]|[(c & e & Hnone & _)
                    |(promptToSend & temp & turns & stream & _ & Hstream & _ & Hwritten & Hcase)]].
    + fold (run w) in Hnone. rewrite Hended in Hnone. discriminate Hnone.
    + fold (run w) in Hnone. rewrite Hended in Hnone. discriminate Hnone.
    + fold (run w) in Hwritten, Hcase. cbn in Hstream. injection Hstream as <-.
      cbn [ending chunks] in Hcase. destruct Hcase as (_ & Hends & Hclosings).
      repeat split; assumption.
  - exact Hatonce.
  - destruct (relayed_response_end_to_end (breaking ["The"; " answer"] w) req false)
      as [[Hnone _]|[(c & e & Hnone & _)
                    |(promptToSend & temp & turns & stream & _ & Hstream & _ & _ & Hcase)]].
    + fold (run (breaking ["The"; " answer"] w)) in Hnone.
      rewrite Hlater in Hnone. discriminate Hnone.
    + fold (run (breaking ["The"; " answer"] w)) in Hnone.
      rewrite Hlater in Hnone. discriminate Hnone.
    + fold (run (breaking ["The"; " answer"] w)) in Hcase.
      cbn in Hstream. injection Hstream as <-.
      cbn [ending chunks] in Hcase. destruct Hcase as (Hres & _ & Hclosings).
      split; [exact Hres | exact Hclosings].
Defined.
